(** * Insight text parser of DocuMint (src/backend/ai/text_parser.py)

    Python strings are modelled as lists of Unicode code points ([N]).
    The regular expressions of the parser are transcribed into a small
    abstract syntax, matched by a backtracking matcher written in
    continuation-passing style, which tries alternatives left to right,
    greedy repetitions longest first and lazy ones shortest first, as
    Python's [re] engine does. *)

From Stdlib Require Import Ascii String List Bool Arith NArith QArith Lia.
Import ListNotations.
Open Scope N_scope.

(** ** Python strings *)

Definition pystr := list N.

Fixpoint s2l (s : string) : pystr :=
  match s with
  | EmptyString => []
  | String a s' => N_of_ascii a :: s2l s'
  end.

Definition nl : N := 10%N.

Fixpoint str_eqb (a b : pystr) : bool :=
  match a, b with
  | [], [] => true
  | x :: a', y :: b' => N.eqb x y && str_eqb a' b'
  | _, _ => false
  end.

(** [str.isspace] / [\s] for [str] patterns (Py_UNICODE_ISSPACE). *)
Definition is_space (c : N) : bool :=
  ((9 <=? c) && (c <=? 13)) || ((28 <=? c) && (c <=? 32)) || (c =? 133)
  || (c =? 160) || (c =? 5760) || ((8192 <=? c) && (c <=? 8202))
  || (c =? 8232) || (c =? 8233) || (c =? 8239) || (c =? 8287)
  || (c =? 12288).

Fixpoint drop_while (p : N -> bool) (s : pystr) : pystr :=
  match s with
  | c :: s' => if p c then drop_while p s' else s
  | [] => []
  end.

(** [str.strip()] *)
Definition py_strip (s : pystr) : pystr :=
  rev (drop_while is_space (rev (drop_while is_space s))).

Fixpoint is_prefix (p s : pystr) : bool :=
  match p, s with
  | [], _ => true
  | x :: p', y :: s' => N.eqb x y && is_prefix p' s'
  | _ :: _, [] => false
  end.

(** [s.startswith(p)] and [s.endswith(p)] *)
Definition startswith (s p : pystr) : bool := is_prefix p s.
Definition endswith (s p : pystr) : bool := is_prefix (rev p) (rev s).

(** [needle in hay] for strings *)
Fixpoint contains (needle hay : pystr) : bool :=
  match hay with
  | [] => is_prefix needle []
  | _ :: hay' => is_prefix needle hay || contains needle hay'
  end.

(** [s.split(sep)] for a one-character separator *)
Fixpoint split_on (sep : N) (s : pystr) : list pystr :=
  match s with
  | [] => [[]]
  | c :: s' =>
      if N.eqb c sep then [] :: split_on sep s'
      else match split_on sep s' with
           | h :: t => (c :: h) :: t
           | [] => [[c]]
           end
  end.

(** [sep.join(l)] *)
Fixpoint join (sep : pystr) (l : list pystr) : pystr :=
  match l with
  | [] => []
  | [x] => x
  | x :: l' => x ++ sep ++ join sep l'
  end.

(** ASCII case mapping, and the characters that Python's IGNORECASE
    matching of [str] patterns equates with an ASCII letter: its two
    ASCII cases, the letters whose simple lowercase is that letter
    (U+0130 for i, U+212A KELVIN SIGN for k) and the extra equivalences
    of [sre_compile] (U+0131 dotless i for i, U+017F long s for s). *)
Definition is_upper_ascii (c : N) : bool := (65 <=? c) && (c <=? 90).
Definition is_lower_ascii (c : N) : bool := (97 <=? c) && (c <=? 122).
Definition lower_ascii (c : N) : N := if is_upper_ascii c then c + 32 else c.
Definition upper_ascii (c : N) : N := if is_lower_ascii c then c - 32 else c.

Definition ci_eq (x c : N) : bool :=
  N.eqb (lower_ascii c) x
  || (N.eqb x 105 && (N.eqb c 304 || N.eqb c 305))
  || (N.eqb x 115 && N.eqb c 383)
  || (N.eqb x 107 && N.eqb c 8490).

(** ** Regular expressions *)

Inductive re :=
| Eps                                (* empty pattern *)
| Chr (p : N -> bool)                (* one character from a class *)
| Seq (r1 r2 : re)
| Alt (r1 r2 : re)                   (* r1|r2, r1 tried first *)
| Star (p : N -> bool) (greedy : bool) (* [class]* or [class]*? *)
| Group (r : re)                     (* capturing group 1 *)
| Look (r : re)                      (* (?=r) *)
| Bol                                (* ^ without MULTILINE *)
| BolM                               (* ^ with MULTILINE *)
| Eol                                (* $ without MULTILINE *)
| Bound (w : N -> bool).             (* \b for the word class w *)

Definition Void : re := Chr (fun _ => false).

(** Continuations receive the reversed consumed prefix, the remaining
    input and the current capture of group 1. *)
Definition cont (T : Type) := pystr -> pystr -> option pystr -> option T.

Fixpoint star_g {T} (p : N -> bool) (pre rest : pystr) (g : option pystr)
  (k : cont T) : option T :=
  match rest with
  | c :: rest' =>
      if p c then
        match star_g p (c :: pre) rest' g k with
        | Some x => Some x
        | None => k pre rest g
        end
      else k pre rest g
  | [] => k pre rest g
  end.

Fixpoint star_l {T} (p : N -> bool) (pre rest : pystr) (g : option pystr)
  (k : cont T) : option T :=
  match k pre rest g with
  | Some x => Some x
  | None =>
      match rest with
      | c :: rest' => if p c then star_l p (c :: pre) rest' g k else None
      | [] => None
      end
  end.

Definition word_at (w : N -> bool) (s : pystr) : bool :=
  match s with c :: _ => w c | [] => false end.

Fixpoint m {T} (r : re) (pre rest : pystr) (g : option pystr) (k : cont T)
  {struct r} : option T :=
  match r with
  | Eps => k pre rest g
  | Chr p =>
      match rest with
      | c :: rest' => if p c then k (c :: pre) rest' g else None
      | [] => None
      end
  | Seq r1 r2 => m r1 pre rest g (fun pre' rest' g' => m r2 pre' rest' g' k)
  | Alt r1 r2 =>
      match m r1 pre rest g k with
      | Some x => Some x
      | None => m r2 pre rest g k
      end
  | Star p greedy => if greedy then star_g p pre rest g k else star_l p pre rest g k
  | Group r1 =>
      m r1 pre rest g (fun pre' rest' _ =>
        k pre' rest' (Some (firstn (length rest - length rest')%nat rest)))
  | Look r1 =>
      match m (T := unit) r1 pre rest g (fun _ _ _ => Some tt) with
      | Some _ => k pre rest g
      | None => None
      end
  | Bol => match pre with [] => k pre rest g | _ => None end
  | BolM =>
      match pre with
      | [] => k pre rest g
      | c :: _ => if N.eqb c nl then k pre rest g else None
      end
  | Eol =>
      match rest with
      | [] => k pre rest g
      | [c] => if N.eqb c nl then k pre rest g else None
      | _ => None
      end
  | Bound w => if xorb (word_at w pre) (word_at w rest) then k pre rest g else None
  end.

(** [re.search] from a position: the first position at or after the
    current one where the pattern matches.  [must_advance] is the flag of
    [_sre] set after an empty match in the [sub], [split] and [findall]
    loops: it rejects an empty match at the starting position only. *)
Fixpoint search_from (r : re) (pre rest : pystr) (must_advance : bool)
  : option (pystr * pystr * pystr * option pystr) :=
  match m r pre rest None (fun pre' rest' g =>
          if must_advance && Nat.eqb (length rest') (length rest) then None
          else Some (pre', rest', g)) with
  | Some (pre', rest', g) => Some ([], pre', rest', g)
  | None =>
      match rest with
      | [] => None
      | c :: rest' =>
          match search_from r (c :: pre) rest' false with
          | Some (skipped, p', r', g) => Some (c :: skipped, p', r', g)
          | None => None
          end
      end
  end.

(** The match loop shared by [re.sub], [re.split] and [re.findall]: the
    successive non-overlapping matches, each with the text skipped before
    it, its own text and its group 1, then the unmatched tail.  Every
    round either consumes a character or sets [must_advance], so
    [2 * length s + 2] rounds exhaust the loop. *)
Fixpoint iter (fuel : nat) (r : re) (pre rest : pystr) (must_advance : bool)
  : list (pystr * pystr * option pystr) * pystr :=
  match fuel with
  | O => ([], rest)
  | S fuel' =>
      match search_from r pre rest must_advance with
      | None => ([], rest)
      | Some (skipped, pre', rest', g) =>
          let start := skipn (length skipped) rest in
          let matched := firstn (length start - length rest')%nat start in
          let '(l, tail) :=
            iter fuel' r pre' rest' (Nat.eqb (length rest') (length start)) in
          ((skipped, matched, g) :: l, tail)
      end
  end.

Definition finditer (r : re) (s : pystr) := iter (2 * length s + 2)%nat r [] s false.

(** [match.group(1)]; group 1 takes part in every match of the patterns
    of the parser. *)
Definition group1 (g : option pystr) : pystr :=
  match g with Some x => x | None => [] end.

(** [re.search(p, s)], returning [match.group(1)] *)
Definition re_search (r : re) (s : pystr) : option pystr :=
  match search_from r [] s false with
  | Some (_, _, _, g) => Some (group1 g)
  | None => None
  end.

(** [re.sub(p, r'\1', s)] *)
Definition re_sub1 (r : re) (s : pystr) : pystr :=
  let '(l, tail) := finditer r s in
  concat (map (fun '(skipped, _, g) => skipped ++ group1 g) l) ++ tail.

(** [re.split(p, s)] for a pattern without capturing groups *)
Definition re_split (r : re) (s : pystr) : list pystr :=
  let '(l, tail) := finditer r s in
  map (fun '(skipped, _, _) => skipped) l ++ [tail].

(** [re.findall(p, s)] for a pattern with one group *)
Definition re_findall (r : re) (s : pystr) : list pystr :=
  map (fun '(_, _, g) => group1 g) (fst (finditer r s)).

(** Pattern builders: a literal, a literal under IGNORECASE, an
    alternation, a sequence, [p+] and [p+?]. *)
Definition lit (s : string) : re :=
  fold_right (fun c r => Seq (Chr (N.eqb c)) r) Eps (s2l s).

Definition ci_class (c : N) : N -> bool :=
  if is_upper_ascii c || is_lower_ascii c then ci_eq (lower_ascii c) else N.eqb c.

Definition lit_ci (s : string) : re :=
  fold_right (fun c r => Seq (Chr (ci_class c)) r) Eps (s2l s).

Definition alts (l : list re) : re := fold_right Alt Void l.
Definition seqs (l : list re) : re := fold_right Seq Eps l.
Definition plus (p : N -> bool) : re := Seq (Chr p) (Star p true).
Definition plus_lazy (p : N -> bool) : re := Seq (Chr p) (Star p false).

Definition any_char (c : N) : bool := true.          (* . with DOTALL *)
Definition not_nl (c : N) : bool := negb (N.eqb c nl). (* . without DOTALL *)
Definition newline : re := Chr (N.eqb nl).

(** [str.title()].  It is applied only to matches of (High|Medium|Low)
    under IGNORECASE, whose characters are ASCII letters or one of
    U+0130, U+0131, U+017F, U+212A; the case mappings are Python's on
    these characters. *)
Definition cased_char (c : N) : bool :=
  is_upper_ascii c || is_lower_ascii c
  || (c =? 304) || (c =? 305) || (c =? 383) || (c =? 8490).

Definition lower_full (c : N) : pystr :=
  if is_upper_ascii c then [c + 32]
  else if c =? 304 then [105; 775]
  else if c =? 8490 then [107]
  else [c].

Definition title_full (c : N) : pystr :=
  if is_lower_ascii c then [c - 32]
  else if c =? 305 then [73]
  else if c =? 383 then [83]
  else [c].

Fixpoint title_from (previous_is_cased : bool) (s : pystr) : pystr :=
  match s with
  | [] => []
  | c :: s' =>
      (if previous_is_cased then lower_full c else title_full c)
        ++ title_from (cased_char c) s'
  end.

Definition py_title (s : pystr) : pystr := title_from false s.

Record ParsedInsight := mkInsight {
  type : pystr;                (* risk, compliance, suggestion, analysis *)
  intensity : pystr;           (* high, medium, low *)
  description : pystr;
  recommendation : pystr;
  confidence : Q
}.

Record DocumentTypeInfo := mkDocInfo {
  document_type : pystr;
  category : pystr;
  doc_confidence : pystr
}.

(** ** The parser

    The Unicode database enters through three operations: [str.lower()],
    the class [\d] of decimal digits and the class [\w] of word characters
    that [\b] refers to. *)
Section Parser.

Variable py_lower : pystr -> pystr.
Variable is_digit : N -> bool.
Variable is_word : N -> bool.

(** [self.patterns] *)
Definition content_pattern (upper cap : string) : re :=
  seqs [Alt (lit_ci upper) (lit_ci cap); lit ":"; Star is_space true;
        Group (plus_lazy any_char);
        Look (alts [newline; lit_ci "INTENSITY"; lit_ci "RECOMMENDATION"; Eol])].

Definition pat_risk := content_pattern "RISK" "Risk".
Definition pat_compliance := content_pattern "COMPLIANCE" "Compliance".
Definition pat_suggestion := content_pattern "SUGGESTION" "Suggestion".
Definition pat_analysis := content_pattern "ANALYSIS" "Analysis".

Definition pat_intensity : re :=
  seqs [Alt (lit_ci "INTENSITY") (lit_ci "Intensity"); lit ":"; Star is_space true;
        Group (alts [lit_ci "High"; lit_ci "Medium"; lit_ci "Low"])].

Definition pat_recommendation : re :=
  seqs [Alt (lit_ci "RECOMMENDATION") (lit_ci "Recommendation"); lit ":";
        Star is_space true; Group (plus_lazy any_char);
        Look (alts [Seq newline (alts [lit_ci "RISK"; lit_ci "COMPLIANCE";
                                       lit_ci "SUGGESTION"; lit_ci "ANALYSIS"]);
                    Eol])].

(** [self.fallback_patterns] *)
Definition bullet_char (c : N) : bool := (c =? 45) || (c =? 8226) || (c =? 42).

Definition pat_bullet_points : re :=
  seqs [BolM; Star is_space true; Chr bullet_char; Star is_space true;
        Group (plus not_nl)].

Definition pat_numbered_points : re :=
  seqs [BolM; Star is_space true; plus is_digit; lit "."; Star is_space true;
        Group (plus not_nl)].

Definition intensity_words : list string :=
  ["critical"; "high"; "significant"; "major"; "serious"; "important";
   "medium"; "moderate"; "low"; "minor"; "minimal"]%string.

Definition pat_intensity_keywords : re :=
  seqs [Bound is_word; Group (alts (map lit_ci intensity_words)); Bound is_word].

(** [self.type_keywords] *)
Definition type_keywords : list (pystr * list pystr) :=
  [(s2l "risk", map s2l ["risk"; "danger"; "threat"; "liability"; "exposure";
                         "vulnerability"; "concern"; "problem"; "issue"]%string);
   (s2l "compliance", map s2l ["compliance"; "regulatory"; "legal"; "requirement";
                               "mandate"; "obligation"; "violation"; "breach"]%string);
   (s2l "suggestion", map s2l ["suggest"; "recommend"; "improve"; "enhance";
                               "optimize"; "consider"; "should"; "could"; "might"]%string)].

(** The markdown patterns: [\*\*([^*]+)\*\*], [\*([^*]+)\*],
    [__([^_]+)__], [_([^_]+)_]. *)
Definition not_star (c : N) : bool := negb (c =? 42).
Definition not_underscore (c : N) : bool := negb (c =? 95).

Definition pat_md_bold := seqs [lit "**"; Group (plus not_star); lit "**"].
Definition pat_md_italic := seqs [lit "*"; Group (plus not_star); lit "*"].
Definition pat_md_ubold := seqs [lit "__"; Group (plus not_underscore); lit "__"].
Definition pat_md_uitalic := seqs [lit "_"; Group (plus not_underscore); lit "_"].

(** The four [re.sub] calls that clean up markdown (lines 155-158,
    170-173, 219-223 and 306-309 of the source). *)
Definition strip_markdown (s : pystr) : pystr :=
  re_sub1 pat_md_uitalic (re_sub1 pat_md_ubold (re_sub1 pat_md_italic (re_sub1 pat_md_bold s))).

(** [_infer_type] *)
Fixpoint first_type (text_lower : pystr) (kws : list (pystr * list pystr))
  (default_type : pystr) : pystr :=
  match kws with
  | [] => default_type
  | (insight_type, keywords) :: kws' =>
      if existsb (fun keyword => contains keyword text_lower) keywords then insight_type
      else first_type text_lower kws' default_type
  end.

Definition _infer_type (text default_type : pystr) : pystr :=
  first_type (py_lower text) type_keywords default_type.

(** [_infer_intensity] *)
Definition _infer_intensity (text : pystr) : pystr :=
  let intensity_matches := re_findall pat_intensity_keywords text in
  let found (tier : list string) :=
    existsb (fun intensity =>
      existsb (fun mt => str_eqb (py_lower mt) (s2l intensity)) intensity_matches) tier in
  match intensity_matches with
  | _ :: _ =>
      if found ["critical"; "high"; "significant"; "major"; "serious"]%string then s2l "High"
      else if found ["important"; "medium"; "moderate"]%string then s2l "Medium"
      else s2l "Low"
  | [] =>
      let text_lower := py_lower text in
      let any_in (words : list string) :=
        existsb (fun word => contains (s2l word) text_lower) words in
      if any_in ["must"; "required"; "critical"; "essential"; "urgent"]%string then s2l "High"
      else if any_in ["should"; "recommended"; "important"; "consider"]%string then s2l "Medium"
      else s2l "Low"
  end.

(** [_generate_recommendation] *)
Definition _generate_recommendation (insight_type description : pystr) : pystr :=
  if str_eqb insight_type (s2l "risk") then
    s2l "Consider mitigating this risk through contract amendments or additional safeguards."
  else if str_eqb insight_type (s2l "compliance") then
    s2l "Ensure compliance by consulting legal counsel and updating relevant clauses."
  else
    s2l "Review this recommendation and consider implementing the suggested improvements.".

(** [_create_insight_from_text] *)
Definition _create_insight_from_text (text default_type : pystr) : ParsedInsight :=
  let insight_type := _infer_type text default_type in
  let intensity := _infer_intensity text in
  let description := strip_markdown (py_strip text) in
  let description :=
    if endswith description (s2l ".") then removelast description else description in
  let recommendation := _generate_recommendation insight_type description in
  mkInsight insight_type intensity description recommendation (7 # 10).

(** [_split_into_blocks]:
    [re.split(r'\n\s*\n|(?=(?:RISK|COMPLIANCE|SUGGESTION|ANALYSIS):|^\s*[-•*]|\d+\.)', text)] *)
Definition pat_blocks : re :=
  Alt (seqs [newline; Star is_space true; newline])
      (Look (alts [Seq (alts [lit "RISK"; lit "COMPLIANCE"; lit "SUGGESTION"; lit "ANALYSIS"])
                       (lit ":");
                   seqs [Bol; Star is_space true; Chr bullet_char];
                   Seq (plus is_digit) (lit ".")])).

Definition nonempty (s : pystr) : bool := match s with [] => false | _ => true end.

Definition _split_into_blocks (text : pystr) : list pystr :=
  map py_strip (filter (fun block => nonempty (py_strip block)) (re_split pat_blocks text)).

(** [_split_into_sentences]: [re.split(r'[.!?]+', text)] *)
Definition sentence_end (c : N) : bool := (c =? 46) || (c =? 33) || (c =? 63).
Definition pat_sentences : re := plus sentence_end.

Definition _split_into_sentences (text : pystr) : list pystr :=
  map py_strip (filter (fun sentence => Nat.ltb 10 (length (py_strip sentence)))
                       (re_split pat_sentences text)).

(** [_parse_single_block] *)
Fixpoint first_label (ps : list (pystr * re)) (block : pystr) : option (pystr * pystr) :=
  match ps with
  | [] => None
  | (type_name, pattern) :: ps' =>
      match re_search pattern block with
      | Some g => Some (type_name, g)
      | None => first_label ps' block
      end
  end.

Definition content_patterns : list (pystr * re) :=
  [(s2l "risk", pat_risk); (s2l "compliance", pat_compliance);
   (s2l "suggestion", pat_suggestion); (s2l "analysis", pat_analysis)].

Definition _parse_single_block (block default_type : pystr) : option ParsedInsight :=
  let '(description, insight_type) :=
    match first_label content_patterns block with
    | Some (type_name, g) =>
        (Some (py_strip g),
         if str_eqb type_name (s2l "analysis") then default_type else type_name)
    | None => (None, default_type)
    end in
  match description with
  | None | Some [] => None
  | Some description =>
      let description := py_strip (strip_markdown description) in
      let intensity :=
        match re_search pat_intensity block with
        | Some g => py_title g
        | None => _infer_intensity description
        end in
      let recommendation :=
        match re_search pat_recommendation block with
        | Some g => py_strip g
        | None => s2l "Consider reviewing this item carefully."
        end in
      let recommendation :=
        if nonempty recommendation then py_strip (strip_markdown recommendation)
        else recommendation in
      Some (mkInsight insight_type intensity description recommendation (8 # 10))
  end.

(** [_parse_structured_format] *)
Definition _parse_structured_format (text default_type : pystr) : list ParsedInsight :=
  flat_map (fun block => match _parse_single_block block default_type with
                         | Some insight => [insight]
                         | None => []
                         end)
           (_split_into_blocks text).

(** [_parse_unstructured_format] *)
Definition _parse_unstructured_format (text default_type : pystr) : list ParsedInsight :=
  let insights :=
    map (fun mt => _create_insight_from_text mt default_type)
        (firstn 5 (re_findall pat_bullet_points text)) in
  let insights :=
    match insights with
    | [] => map (fun mt => _create_insight_from_text mt default_type)
                (firstn 5 (re_findall pat_numbered_points text))
    | _ => insights
    end in
  match insights with
  | [] =>
      map (fun sentence => _create_insight_from_text sentence default_type)
          (filter (fun sentence => Nat.ltb 20 (length (py_strip sentence)))
                  (firstn 3 (_split_into_sentences text)))
  | _ => insights
  end.

(** [_extract_main_content] *)
Definition _extract_main_content (text : pystr) : pystr :=
  let content_lines :=
    filter (fun line => nonempty line && negb (startswith line (s2l "Based on"))
                        && negb (startswith line (s2l "Document")))
           (map py_strip (split_on nl text)) in
  let main_content := strip_markdown (join (s2l " ") content_lines) in
  if Nat.ltb 200 (length main_content) then firstn 200 main_content ++ s2l "..."
  else main_content.

Definition fallback_recommendation : pystr :=
  s2l "Review this analysis and consider the implications for your document.".

(** [parse_insights_from_text] *)
Definition parse_insights_from_text (response_text default_type : pystr)
  : list ParsedInsight :=
  let insights := _parse_structured_format response_text default_type in
  let insights :=
    match insights with
    | [] => _parse_unstructured_format response_text default_type
    | _ => insights
    end in
  match insights with
  | [] => [mkInsight default_type (s2l "Medium") (_extract_main_content response_text)
                     fallback_recommendation (6 # 10)]
  | _ => insights
  end.

(** [parse_document_type] *)
Definition pat_document_type : re :=
  seqs [lit_ci "Document Type:"; Star is_space true; Group (plus not_nl)].
Definition pat_category : re :=
  seqs [lit_ci "Category:"; Star is_space true; Group (plus not_nl)].
Definition pat_confidence : re :=
  seqs [lit_ci "Confidence:"; Star is_space true;
        Group (alts [lit_ci "High"; lit_ci "Medium"; lit_ci "Low"])].

Definition doc_types : list pystr :=
  map s2l ["agreement"; "contract"; "policy"; "terms"; "conditions"; "lease";
           "nda"; "employment"]%string.

(** The loop over the first lines: the first non-empty line without a
    preamble decides, and ends the loop either way. *)
Fixpoint doc_type_from_lines (lines : list pystr) : option pystr :=
  match lines with
  | [] => None
  | line :: lines' =>
      let line := py_strip line in
      if nonempty line && negb (startswith line (s2l "Based on"))
         && negb (startswith line (s2l "This document")) then
        if existsb (fun doc_type => contains (py_lower doc_type) (py_lower line)) doc_types
        then Some line else None
      else doc_type_from_lines lines'
  end.

Definition parse_document_type (response_text : pystr) : DocumentTypeInfo :=
  let document_type :=
    match re_search pat_document_type response_text with
    | Some g => py_strip g
    | None => s2l "Unknown Document"
    end in
  let category :=
    match re_search pat_category response_text with
    | Some g => py_strip g
    | None => s2l "Legal"
    end in
  let confidence :=
    match re_search pat_confidence response_text with
    | Some g => py_title g
    | None => s2l "Medium"
    end in
  let document_type :=
    if str_eqb document_type (s2l "Unknown Document") then
      match doc_type_from_lines (firstn 3 (split_on nl response_text)) with
      | Some line => line
      | None => document_type
      end
    else document_type in
  mkDocInfo document_type category confidence.

End Parser.

(** ** The caller: src/backend/ai/dynamic_gemini_client.py

    The model calls are the program's only effect.  The outcome of a call
    is [response.text] ([Some]), or [None] when awaiting it raised; the
    callers only [strip()] the text and hand it to the parser. *)

Section Client.
Variable py_lower : pystr -> pystr.
Variable is_digit : N -> bool.
Variable is_word : N -> bool.

(** [_detect_document_type] (lines 101-123) *)
Definition _detect_document_type (outcome : option pystr) : DocumentTypeInfo :=
  match outcome with
  | Some response_text => parse_document_type py_lower (py_strip response_text)
  | None => mkDocInfo (s2l "Legal Document") (s2l "Legal") (s2l "Low")
  end.

Definition default_types : list pystr := [s2l "risk"; s2l "compliance"; s2l "suggestion"].

(** [default_types[i] if i < len(default_types) else 'suggestion'] *)
Definition default_type_for (i : nat) : pystr :=
  if Nat.ltb i (length default_types) then nth i default_types [] else s2l "suggestion".

(** The loop of [_run_generic_analysis] over [enumerate(tasks)] from
    index [i]; a task that raised is skipped. *)
Fixpoint generic_loop (i : nat) (outcomes : list (option pystr)) : list ParsedInsight :=
  match outcomes with
  | [] => []
  | Some response_text :: outcomes' =>
      parse_insights_from_text py_lower is_digit is_word (py_strip response_text)
                               (default_type_for i)
      ++ generic_loop (S i) outcomes'
  | None :: outcomes' => generic_loop (S i) outcomes'
  end.

(** [_run_generic_analysis] (lines 125-167): [outcomes] are those of the
    tasks of the generic prompts, in prompt order. *)
Definition _run_generic_analysis (outcomes : list (option pystr)) : list ParsedInsight :=
  generic_loop 0 outcomes.

Fixpoint specific_loop (outcomes : list (option pystr)) : list ParsedInsight :=
  match outcomes with
  | [] => []
  | Some response_text :: outcomes' =>
      parse_insights_from_text py_lower is_digit is_word (py_strip response_text)
                               (s2l "analysis")
      ++ specific_loop outcomes'
  | None :: outcomes' => specific_loop outcomes'
  end.

(** [_run_specific_analysis] (lines 169-207): [outcomes] are those of the
    document-specific prompts, in order; only [specific_prompts[:3]] get
    a task. *)
Definition _run_specific_analysis (outcomes : list (option pystr)) : list ParsedInsight :=
  specific_loop (firstn 3 outcomes).

(** The dictionaries built by [analyze_document_dynamic]. *)
Record FormattedInsight := mkFormatted {
  type_of_insight : pystr;
  f_description : pystr;
  f_intensity : pystr;
  f_recommendation : pystr
}.

Record DocumentAnalysis := mkDocAnalysis {
  analysis_document_type : DocumentTypeInfo;
  total_insights : nat;
  generic_insights_count : nat;
  specific_insights_count : nat
}.

Record AnalysisResult := mkAnalysis {
  doc_id : pystr;
  insights : list FormattedInsight;
  document_analysis : DocumentAnalysis;
  analysis_method : pystr
}.

Definition format_insight (insight : ParsedInsight) : FormattedInsight :=
  mkFormatted (type insight) (description insight) (py_lower (intensity insight))
              (recommendation insight).

Definition placeholder_insight : FormattedInsight :=
  mkFormatted (s2l "suggestion")
              (s2l "Document analysis completed successfully using dynamic workflow")
              (s2l "low")
              (s2l "Review the document for any specific requirements in your use case").

(** [analyze_document_dynamic] (lines 35-99): [specific_outcomes] gives
    the outcomes of the prompts built for the detected document type. *)
Definition analyze_document_dynamic (doc_id : pystr) (detect_outcome : option pystr)
  (generic_outcomes : list (option pystr))
  (specific_outcomes : pystr -> list (option pystr)) : AnalysisResult :=
  let doc_type_info := _detect_document_type detect_outcome in
  let generic_insights := _run_generic_analysis generic_outcomes in
  let specific_insights :=
    _run_specific_analysis (specific_outcomes (document_type doc_type_info)) in
  let all_insights := generic_insights ++ specific_insights in
  let formatted_insights := map format_insight all_insights in
  let formatted_insights :=
    match formatted_insights with
    | [] => [placeholder_insight]
    | _ => formatted_insights
    end in
  mkAnalysis doc_id formatted_insights
    (mkDocAnalysis doc_type_info (length formatted_insights)
                   (length generic_insights) (length specific_insights))
    (s2l "dynamic_workflow").

(** The choice of question set in [get_document_specific_prompts]
    (src/backend/ai/dynamic_prompts.py, lines 119-154). *)
Definition type_mapping : list (pystr * pystr) :=
  map (fun '(k, v) => (s2l k, s2l v))
    [("non-disclosure", "nda"); ("nda", "nda"); ("confidentiality", "nda");
     ("employment", "employment"); ("job", "employment"); ("work", "employment");
     ("lease", "lease"); ("rental", "lease"); ("rent", "lease");
     ("purchase", "purchase"); ("buy", "purchase"); ("sale", "purchase");
     ("service", "service"); ("consulting", "service"); ("professional", "service");
     ("terms", "terms"); ("tos", "terms"); ("conditions", "terms");
     ("privacy", "privacy"); ("data", "privacy")]%string.

(** The keys of [DOCUMENT_SPECIFIC_QUESTIONS]. *)
Definition question_keys : list pystr :=
  map s2l ["nda"; "employment"; "lease"; "purchase"; "service"; "terms"; "privacy"]%string.

Fixpoint find_question_key (doc_type_lower : pystr) (mapping : list (pystr * pystr))
  : option pystr :=
  match mapping with
  | [] => None
  | (key_phrase, question_set) :: mapping' =>
      if contains key_phrase doc_type_lower then Some question_set
      else find_question_key doc_type_lower mapping'
  end.

Definition question_key (document_type : pystr) : pystr :=
  match find_question_key (py_lower document_type) type_mapping with
  | Some k => k
  | None => s2l "service"
  end.

(** The key under which [DOCUMENT_SPECIFIC_QUESTIONS.get(question_key,
    DOCUMENT_SPECIFIC_QUESTIONS["service"])] finds its questions. *)
Definition question_set_key (document_type : pystr) : pystr :=
  let k := question_key document_type in
  if existsb (str_eqb k) question_keys then k else s2l "service".

End Client.

(** ** Executable instance

    Python's [str.lower()], [\d] and [\w] for [str] patterns, from the
    Unicode database of Python 3.11 (Unicode 14.0). *)

(** The decimal digits of [str.isdecimal()] (what [\d] matches in a [str]
    pattern), as ranges of code points; generated from Python 3.11's
    [unicodedata], Unicode 14.0. *)

Definition decimal_ranges : list (N * N) :=
[
  (48, 57); (1632, 1641); (1776, 1785); (1984, 1993); (2406, 2415); (2534, 2543);
  (2662, 2671); (2790, 2799); (2918, 2927); (3046, 3055); (3174, 3183); (3302, 3311);
  (3430, 3439); (3558, 3567); (3664, 3673); (3792, 3801); (3872, 3881); (4160, 4169);
  (4240, 4249); (6112, 6121); (6160, 6169); (6470, 6479); (6608, 6617); (6784, 6793);
  (6800, 6809); (6992, 7001); (7088, 7097); (7232, 7241); (7248, 7257); (42528, 42537);
  (43216, 43225); (43264, 43273); (43472, 43481); (43504, 43513); (43600, 43609); (44016, 44025);
  (65296, 65305); (66720, 66729); (68912, 68921); (69734, 69743); (69872, 69881); (69942, 69951);
  (70096, 70105); (70384, 70393); (70736, 70745); (70864, 70873); (71248, 71257); (71360, 71369);
  (71472, 71481); (71904, 71913); (72016, 72025); (72784, 72793); (73040, 73049); (73120, 73129);
  (92768, 92777); (92864, 92873); (93008, 93017); (120782, 120831); (123200, 123209); (123632, 123641);
  (125264, 125273); (130032, 130041)].

(** The characters of [str.isalnum()] (with [_], what [\w] matches),
    from the same database. *)

Definition alnum_ranges : list (N * N) :=
[
  (48, 57); (65, 90); (95, 95); (97, 122); (170, 170); (178, 179);
  (181, 181); (185, 186); (188, 190); (192, 214); (216, 246); (248, 705);
  (710, 721); (736, 740); (748, 748); (750, 750); (880, 884); (886, 887);
  (890, 893); (895, 895); (902, 902); (904, 906); (908, 908); (910, 929);
  (931, 1013); (1015, 1153); (1162, 1327); (1329, 1366); (1369, 1369); (1376, 1416);
  (1488, 1514); (1519, 1522); (1568, 1610); (1632, 1641); (1646, 1647); (1649, 1747);
  (1749, 1749); (1765, 1766); (1774, 1788); (1791, 1791); (1808, 1808); (1810, 1839);
  (1869, 1957); (1969, 1969); (1984, 2026); (2036, 2037); (2042, 2042); (2048, 2069);
  (2074, 2074); (2084, 2084); (2088, 2088); (2112, 2136); (2144, 2154); (2160, 2183);
  (2185, 2190); (2208, 2249); (2308, 2361); (2365, 2365); (2384, 2384); (2392, 2401);
  (2406, 2415); (2417, 2432); (2437, 2444); (2447, 2448); (2451, 2472); (2474, 2480);
  (2482, 2482); (2486, 2489); (2493, 2493); (2510, 2510); (2524, 2525); (2527, 2529);
  (2534, 2545); (2548, 2553); (2556, 2556); (2565, 2570); (2575, 2576); (2579, 2600);
  (2602, 2608); (2610, 2611); (2613, 2614); (2616, 2617); (2649, 2652); (2654, 2654);
  (2662, 2671); (2674, 2676); (2693, 2701); (2703, 2705); (2707, 2728); (2730, 2736);
  (2738, 2739); (2741, 2745); (2749, 2749); (2768, 2768); (2784, 2785); (2790, 2799);
  (2809, 2809); (2821, 2828); (2831, 2832); (2835, 2856); (2858, 2864); (2866, 2867);
  (2869, 2873); (2877, 2877); (2908, 2909); (2911, 2913); (2918, 2927); (2929, 2935);
  (2947, 2947); (2949, 2954); (2958, 2960); (2962, 2965); (2969, 2970); (2972, 2972);
  (2974, 2975); (2979, 2980); (2984, 2986); (2990, 3001); (3024, 3024); (3046, 3058);
  (3077, 3084); (3086, 3088); (3090, 3112); (3114, 3129); (3133, 3133); (3160, 3162);
  (3165, 3165); (3168, 3169); (3174, 3183); (3192, 3198); (3200, 3200); (3205, 3212);
  (3214, 3216); (3218, 3240); (3242, 3251); (3253, 3257); (3261, 3261); (3293, 3294);
  (3296, 3297); (3302, 3311); (3313, 3314); (3332, 3340); (3342, 3344); (3346, 3386);
  (3389, 3389); (3406, 3406); (3412, 3414); (3416, 3425); (3430, 3448); (3450, 3455);
  (3461, 3478); (3482, 3505); (3507, 3515); (3517, 3517); (3520, 3526); (3558, 3567);
  (3585, 3632); (3634, 3635); (3648, 3654); (3664, 3673); (3713, 3714); (3716, 3716);
  (3718, 3722); (3724, 3747); (3749, 3749); (3751, 3760); (3762, 3763); (3773, 3773);
  (3776, 3780); (3782, 3782); (3792, 3801); (3804, 3807); (3840, 3840); (3872, 3891);
  (3904, 3911); (3913, 3948); (3976, 3980); (4096, 4138); (4159, 4169); (4176, 4181);
  (4186, 4189); (4193, 4193); (4197, 4198); (4206, 4208); (4213, 4225); (4238, 4238);
  (4240, 4249); (4256, 4293); (4295, 4295); (4301, 4301); (4304, 4346); (4348, 4680);
  (4682, 4685); (4688, 4694); (4696, 4696); (4698, 4701); (4704, 4744); (4746, 4749);
  (4752, 4784); (4786, 4789); (4792, 4798); (4800, 4800); (4802, 4805); (4808, 4822);
  (4824, 4880); (4882, 4885); (4888, 4954); (4969, 4988); (4992, 5007); (5024, 5109);
  (5112, 5117); (5121, 5740); (5743, 5759); (5761, 5786); (5792, 5866); (5870, 5880);
  (5888, 5905); (5919, 5937); (5952, 5969); (5984, 5996); (5998, 6000); (6016, 6067);
  (6103, 6103); (6108, 6108); (6112, 6121); (6128, 6137); (6160, 6169); (6176, 6264);
  (6272, 6276); (6279, 6312); (6314, 6314); (6320, 6389); (6400, 6430); (6470, 6509);
  (6512, 6516); (6528, 6571); (6576, 6601); (6608, 6618); (6656, 6678); (6688, 6740);
  (6784, 6793); (6800, 6809); (6823, 6823); (6917, 6963); (6981, 6988); (6992, 7001);
  (7043, 7072); (7086, 7141); (7168, 7203); (7232, 7241); (7245, 7293); (7296, 7304);
  (7312, 7354); (7357, 7359); (7401, 7404); (7406, 7411); (7413, 7414); (7418, 7418);
  (7424, 7615); (7680, 7957); (7960, 7965); (7968, 8005); (8008, 8013); (8016, 8023);
  (8025, 8025); (8027, 8027); (8029, 8029); (8031, 8061); (8064, 8116); (8118, 8124);
  (8126, 8126); (8130, 8132); (8134, 8140); (8144, 8147); (8150, 8155); (8160, 8172);
  (8178, 8180); (8182, 8188); (8304, 8305); (8308, 8313); (8319, 8329); (8336, 8348);
  (8450, 8450); (8455, 8455); (8458, 8467); (8469, 8469); (8473, 8477); (8484, 8484);
  (8486, 8486); (8488, 8488); (8490, 8493); (8495, 8505); (8508, 8511); (8517, 8521);
  (8526, 8526); (8528, 8585); (9312, 9371); (9450, 9471); (10102, 10131); (11264, 11492);
  (11499, 11502); (11506, 11507); (11517, 11517); (11520, 11557); (11559, 11559); (11565, 11565);
  (11568, 11623); (11631, 11631); (11648, 11670); (11680, 11686); (11688, 11694); (11696, 11702);
  (11704, 11710); (11712, 11718); (11720, 11726); (11728, 11734); (11736, 11742); (11823, 11823);
  (12293, 12295); (12321, 12329); (12337, 12341); (12344, 12348); (12353, 12438); (12445, 12447);
  (12449, 12538); (12540, 12543); (12549, 12591); (12593, 12686); (12690, 12693); (12704, 12735);
  (12784, 12799); (12832, 12841); (12872, 12879); (12881, 12895); (12928, 12937); (12977, 12991);
  (13312, 19903); (19968, 42124); (42192, 42237); (42240, 42508); (42512, 42539); (42560, 42606);
  (42623, 42653); (42656, 42735); (42775, 42783); (42786, 42888); (42891, 42954); (42960, 42961);
  (42963, 42963); (42965, 42969); (42994, 43009); (43011, 43013); (43015, 43018); (43020, 43042);
  (43056, 43061); (43072, 43123); (43138, 43187); (43216, 43225); (43250, 43255); (43259, 43259);
  (43261, 43262); (43264, 43301); (43312, 43334); (43360, 43388); (43396, 43442); (43471, 43481);
  (43488, 43492); (43494, 43518); (43520, 43560); (43584, 43586); (43588, 43595); (43600, 43609);
  (43616, 43638); (43642, 43642); (43646, 43695); (43697, 43697); (43701, 43702); (43705, 43709);
  (43712, 43712); (43714, 43714); (43739, 43741); (43744, 43754); (43762, 43764); (43777, 43782);
  (43785, 43790); (43793, 43798); (43808, 43814); (43816, 43822); (43824, 43866); (43868, 43881);
  (43888, 44002); (44016, 44025); (44032, 55203); (55216, 55238); (55243, 55291); (63744, 64109);
  (64112, 64217); (64256, 64262); (64275, 64279); (64285, 64285); (64287, 64296); (64298, 64310);
  (64312, 64316); (64318, 64318); (64320, 64321); (64323, 64324); (64326, 64433); (64467, 64829);
  (64848, 64911); (64914, 64967); (65008, 65019); (65136, 65140); (65142, 65276); (65296, 65305);
  (65313, 65338); (65345, 65370); (65382, 65470); (65474, 65479); (65482, 65487); (65490, 65495);
  (65498, 65500); (65536, 65547); (65549, 65574); (65576, 65594); (65596, 65597); (65599, 65613);
  (65616, 65629); (65664, 65786); (65799, 65843); (65856, 65912); (65930, 65931); (66176, 66204);
  (66208, 66256); (66273, 66299); (66304, 66339); (66349, 66378); (66384, 66421); (66432, 66461);
  (66464, 66499); (66504, 66511); (66513, 66517); (66560, 66717); (66720, 66729); (66736, 66771);
  (66776, 66811); (66816, 66855); (66864, 66915); (66928, 66938); (66940, 66954); (66956, 66962);
  (66964, 66965); (66967, 66977); (66979, 66993); (66995, 67001); (67003, 67004); (67072, 67382);
  (67392, 67413); (67424, 67431); (67456, 67461); (67463, 67504); (67506, 67514); (67584, 67589);
  (67592, 67592); (67594, 67637); (67639, 67640); (67644, 67644); (67647, 67669); (67672, 67702);
  (67705, 67742); (67751, 67759); (67808, 67826); (67828, 67829); (67835, 67867); (67872, 67897);
  (67968, 68023); (68028, 68047); (68050, 68096); (68112, 68115); (68117, 68119); (68121, 68149);
  (68160, 68168); (68192, 68222); (68224, 68255); (68288, 68295); (68297, 68324); (68331, 68335);
  (68352, 68405); (68416, 68437); (68440, 68466); (68472, 68497); (68521, 68527); (68608, 68680);
  (68736, 68786); (68800, 68850); (68858, 68899); (68912, 68921); (69216, 69246); (69248, 69289);
  (69296, 69297); (69376, 69415); (69424, 69445); (69457, 69460); (69488, 69505); (69552, 69579);
  (69600, 69622); (69635, 69687); (69714, 69743); (69745, 69746); (69749, 69749); (69763, 69807);
  (69840, 69864); (69872, 69881); (69891, 69926); (69942, 69951); (69956, 69956); (69959, 69959);
  (69968, 70002); (70006, 70006); (70019, 70066); (70081, 70084); (70096, 70106); (70108, 70108);
  (70113, 70132); (70144, 70161); (70163, 70187); (70272, 70278); (70280, 70280); (70282, 70285);
  (70287, 70301); (70303, 70312); (70320, 70366); (70384, 70393); (70405, 70412); (70415, 70416);
  (70419, 70440); (70442, 70448); (70450, 70451); (70453, 70457); (70461, 70461); (70480, 70480);
  (70493, 70497); (70656, 70708); (70727, 70730); (70736, 70745); (70751, 70753); (70784, 70831);
  (70852, 70853); (70855, 70855); (70864, 70873); (71040, 71086); (71128, 71131); (71168, 71215);
  (71236, 71236); (71248, 71257); (71296, 71338); (71352, 71352); (71360, 71369); (71424, 71450);
  (71472, 71483); (71488, 71494); (71680, 71723); (71840, 71922); (71935, 71942); (71945, 71945);
  (71948, 71955); (71957, 71958); (71960, 71983); (71999, 71999); (72001, 72001); (72016, 72025);
  (72096, 72103); (72106, 72144); (72161, 72161); (72163, 72163); (72192, 72192); (72203, 72242);
  (72250, 72250); (72272, 72272); (72284, 72329); (72349, 72349); (72368, 72440); (72704, 72712);
  (72714, 72750); (72768, 72768); (72784, 72812); (72818, 72847); (72960, 72966); (72968, 72969);
  (72971, 73008); (73030, 73030); (73040, 73049); (73056, 73061); (73063, 73064); (73066, 73097);
  (73112, 73112); (73120, 73129); (73440, 73458); (73648, 73648); (73664, 73684); (73728, 74649);
  (74752, 74862); (74880, 75075); (77712, 77808); (77824, 78894); (82944, 83526); (92160, 92728);
  (92736, 92766); (92768, 92777); (92784, 92862); (92864, 92873); (92880, 92909); (92928, 92975);
  (92992, 92995); (93008, 93017); (93019, 93025); (93027, 93047); (93053, 93071); (93760, 93846);
  (93952, 94026); (94032, 94032); (94099, 94111); (94176, 94177); (94179, 94179); (94208, 100343);
  (100352, 101589); (101632, 101640); (110576, 110579); (110581, 110587); (110589, 110590); (110592, 110882);
  (110928, 110930); (110948, 110951); (110960, 111355); (113664, 113770); (113776, 113788); (113792, 113800);
  (113808, 113817); (119520, 119539); (119648, 119672); (119808, 119892); (119894, 119964); (119966, 119967);
  (119970, 119970); (119973, 119974); (119977, 119980); (119982, 119993); (119995, 119995); (119997, 120003);
  (120005, 120069); (120071, 120074); (120077, 120084); (120086, 120092); (120094, 120121); (120123, 120126);
  (120128, 120132); (120134, 120134); (120138, 120144); (120146, 120485); (120488, 120512); (120514, 120538);
  (120540, 120570); (120572, 120596); (120598, 120628); (120630, 120654); (120656, 120686); (120688, 120712);
  (120714, 120744); (120746, 120770); (120772, 120779); (120782, 120831); (122624, 122654); (123136, 123180);
  (123191, 123197); (123200, 123209); (123214, 123214); (123536, 123565); (123584, 123627); (123632, 123641);
  (124896, 124902); (124904, 124907); (124909, 124910); (124912, 124926); (124928, 125124); (125127, 125135);
  (125184, 125251); (125259, 125259); (125264, 125273); (126065, 126123); (126125, 126127); (126129, 126132);
  (126209, 126253); (126255, 126269); (126464, 126467); (126469, 126495); (126497, 126498); (126500, 126500);
  (126503, 126503); (126505, 126514); (126516, 126519); (126521, 126521); (126523, 126523); (126530, 126530);
  (126535, 126535); (126537, 126537); (126539, 126539); (126541, 126543); (126545, 126546); (126548, 126548);
  (126551, 126551); (126553, 126553); (126555, 126555); (126557, 126557); (126559, 126559); (126561, 126562);
  (126564, 126564); (126567, 126570); (126572, 126578); (126580, 126583); (126585, 126588); (126590, 126590);
  (126592, 126601); (126603, 126619); (126625, 126627); (126629, 126633); (126635, 126651); (127232, 127244);
  (130032, 130041); (131072, 173791); (173824, 177976); (177984, 178205); (178208, 183969); (183984, 191456);
  (194560, 195101); (196608, 201546)].

(** [str.lower()] on one character: runs [(lo, hi, step, target)] map
    [lo + k * step] to [target + k * step]; U+0130 lowers to two
    characters; from the same database. *)

Definition lower_runs : list (N * N * N * N) :=
[
  (65, 90, 1, 97); (192, 214, 1, 224); (216, 222, 1, 248); (256, 302, 2, 257);
  (306, 310, 2, 307); (313, 327, 2, 314); (330, 374, 2, 331); (376, 376, 1, 255);
  (377, 381, 2, 378); (385, 385, 1, 595); (386, 388, 2, 387); (390, 390, 1, 596);
  (391, 391, 1, 392); (393, 394, 1, 598); (395, 395, 1, 396); (398, 398, 1, 477);
  (399, 399, 1, 601); (400, 400, 1, 603); (401, 401, 1, 402); (403, 403, 1, 608);
  (404, 404, 1, 611); (406, 406, 1, 617); (407, 407, 1, 616); (408, 408, 1, 409);
  (412, 412, 1, 623); (413, 413, 1, 626); (415, 415, 1, 629); (416, 420, 2, 417);
  (422, 422, 1, 640); (423, 423, 1, 424); (425, 425, 1, 643); (428, 428, 1, 429);
  (430, 430, 1, 648); (431, 431, 1, 432); (433, 434, 1, 650); (435, 437, 2, 436);
  (439, 439, 1, 658); (440, 440, 1, 441); (444, 444, 1, 445); (452, 452, 1, 454);
  (453, 453, 1, 454); (455, 455, 1, 457); (456, 456, 1, 457); (458, 458, 1, 460);
  (459, 475, 2, 460); (478, 494, 2, 479); (497, 497, 1, 499); (498, 500, 2, 499);
  (502, 502, 1, 405); (503, 503, 1, 447); (504, 542, 2, 505); (544, 544, 1, 414);
  (546, 562, 2, 547); (570, 570, 1, 11365); (571, 571, 1, 572); (573, 573, 1, 410);
  (574, 574, 1, 11366); (577, 577, 1, 578); (579, 579, 1, 384); (580, 580, 1, 649);
  (581, 581, 1, 652); (582, 590, 2, 583); (880, 882, 2, 881); (886, 886, 1, 887);
  (895, 895, 1, 1011); (902, 902, 1, 940); (904, 906, 1, 941); (908, 908, 1, 972);
  (910, 911, 1, 973); (913, 929, 1, 945); (931, 939, 1, 963); (975, 975, 1, 983);
  (984, 1006, 2, 985); (1012, 1012, 1, 952); (1015, 1015, 1, 1016); (1017, 1017, 1, 1010);
  (1018, 1018, 1, 1019); (1021, 1023, 1, 891); (1024, 1039, 1, 1104); (1040, 1071, 1, 1072);
  (1120, 1152, 2, 1121); (1162, 1214, 2, 1163); (1216, 1216, 1, 1231); (1217, 1229, 2, 1218);
  (1232, 1326, 2, 1233); (1329, 1366, 1, 1377); (4256, 4293, 1, 11520); (4295, 4295, 1, 11559);
  (4301, 4301, 1, 11565); (5024, 5103, 1, 43888); (5104, 5109, 1, 5112); (7312, 7354, 1, 4304);
  (7357, 7359, 1, 4349); (7680, 7828, 2, 7681); (7838, 7838, 1, 223); (7840, 7934, 2, 7841);
  (7944, 7951, 1, 7936); (7960, 7965, 1, 7952); (7976, 7983, 1, 7968); (7992, 7999, 1, 7984);
  (8008, 8013, 1, 8000); (8025, 8031, 2, 8017); (8040, 8047, 1, 8032); (8072, 8079, 1, 8064);
  (8088, 8095, 1, 8080); (8104, 8111, 1, 8096); (8120, 8121, 1, 8112); (8122, 8123, 1, 8048);
  (8124, 8124, 1, 8115); (8136, 8139, 1, 8050); (8140, 8140, 1, 8131); (8152, 8153, 1, 8144);
  (8154, 8155, 1, 8054); (8168, 8169, 1, 8160); (8170, 8171, 1, 8058); (8172, 8172, 1, 8165);
  (8184, 8185, 1, 8056); (8186, 8187, 1, 8060); (8188, 8188, 1, 8179); (8486, 8486, 1, 969);
  (8490, 8490, 1, 107); (8491, 8491, 1, 229); (8498, 8498, 1, 8526); (8544, 8559, 1, 8560);
  (8579, 8579, 1, 8580); (9398, 9423, 1, 9424); (11264, 11311, 1, 11312); (11360, 11360, 1, 11361);
  (11362, 11362, 1, 619); (11363, 11363, 1, 7549); (11364, 11364, 1, 637); (11367, 11371, 2, 11368);
  (11373, 11373, 1, 593); (11374, 11374, 1, 625); (11375, 11375, 1, 592); (11376, 11376, 1, 594);
  (11378, 11378, 1, 11379); (11381, 11381, 1, 11382); (11390, 11391, 1, 575); (11392, 11490, 2, 11393);
  (11499, 11501, 2, 11500); (11506, 11506, 1, 11507); (42560, 42604, 2, 42561); (42624, 42650, 2, 42625);
  (42786, 42798, 2, 42787); (42802, 42862, 2, 42803); (42873, 42875, 2, 42874); (42877, 42877, 1, 7545);
  (42878, 42886, 2, 42879); (42891, 42891, 1, 42892); (42893, 42893, 1, 613); (42896, 42898, 2, 42897);
  (42902, 42920, 2, 42903); (42922, 42922, 1, 614); (42923, 42923, 1, 604); (42924, 42924, 1, 609);
  (42925, 42925, 1, 620); (42926, 42926, 1, 618); (42928, 42928, 1, 670); (42929, 42929, 1, 647);
  (42930, 42930, 1, 669); (42931, 42931, 1, 43859); (42932, 42946, 2, 42933); (42948, 42948, 1, 42900);
  (42949, 42949, 1, 642); (42950, 42950, 1, 7566); (42951, 42953, 2, 42952); (42960, 42960, 1, 42961);
  (42966, 42968, 2, 42967); (42997, 42997, 1, 42998); (65313, 65338, 1, 65345); (66560, 66599, 1, 66600);
  (66736, 66771, 1, 66776); (66928, 66938, 1, 66967); (66940, 66954, 1, 66979); (66956, 66962, 1, 66995);
  (66964, 66965, 1, 67003); (68736, 68786, 1, 68800); (71840, 71871, 1, 71872); (93760, 93791, 1, 93792);
  (125184, 125217, 1, 125218)].

Definition in_ranges (rs : list (N * N)) (c : N) : bool :=
  existsb (fun '(lo, hi) => (lo <=? c) && (c <=? hi)) rs.

Definition lower_char (c : N) : pystr :=
  if c =? 304 then [105; 775]
  else match find (fun '(lo, hi, step, _) =>
                     (lo <=? c) && (c <=? hi) && (N.modulo (c - lo) step =? 0)) lower_runs with
       | Some (lo, _, _, target) => [target + (c - lo)]
       | None => [c]
       end.

Definition lower_inst (s : pystr) : pystr := flat_map lower_char s.
Definition digit_inst (c : N) : bool := in_ranges decimal_ranges c.
Definition word_inst (c : N) : bool := in_ranges alnum_ranges c || (c =? 95).

Definition parse_insights_py := parse_insights_from_text lower_inst digit_inst word_inst.
Definition parse_document_type_py := parse_document_type lower_inst.
Definition parse_single_block_py := _parse_single_block lower_inst word_inst.
Definition split_into_blocks_py := _split_into_blocks digit_inst.
Definition parse_unstructured_py := _parse_unstructured_format lower_inst digit_inst word_inst.

(** ** Soundness of the matcher

    [lang r w]: the characters [w] are consumed by [r] (anchors and
    lookaheads consume nothing). *)
Inductive lang : re -> pystr -> Prop :=
| lang_eps : lang Eps []
| lang_chr (p : N -> bool) c : p c = true -> lang (Chr p) [c]
| lang_seq r1 r2 w1 w2 : lang r1 w1 -> lang r2 w2 -> lang (Seq r1 r2) (w1 ++ w2)
| lang_altl r1 r2 w : lang r1 w -> lang (Alt r1 r2) w
| lang_altr r1 r2 w : lang r2 w -> lang (Alt r1 r2) w
| lang_star (p : N -> bool) greedy w :
    Forall (fun c => p c = true) w -> lang (Star p greedy) w
| lang_group r w : lang r w -> lang (Group r) w
| lang_look r : lang (Look r) []
| lang_bol : lang Bol []
| lang_bolm : lang BolM []
| lang_eol : lang Eol []
| lang_bound w : lang (Bound w) [].

(** A capture made by a group of [r], and the patterns that always
    capture. *)
Fixpoint in_group (r : re) (w : pystr) : Prop :=
  match r with
  | Group r1 => lang r1 w \/ in_group r1 w
  | Seq r1 r2 | Alt r1 r2 => in_group r1 w \/ in_group r2 w
  | _ => False
  end.

Fixpoint must_cap (r : re) : Prop :=
  match r with
  | Group _ => True
  | Seq r1 r2 => must_cap r1 \/ must_cap r2
  | Alt r1 r2 => must_cap r1 /\ must_cap r2
  | _ => False
  end.

Definition captured (r : re) (rest : pystr) (g g' : option pystr) : Prop :=
  (g' = g \/ exists w0, g' = Some w0 /\ in_group r w0 /\ incl w0 rest)
  /\ (must_cap r -> exists w0, g' = Some w0 /\ in_group r w0 /\ incl w0 rest).

Lemma firstn_length_app (w r : pystr) :
  firstn (length (w ++ r) - length r)%nat (w ++ r) = w.
Proof.
  rewrite length_app, Nat.add_sub.
  induction w as [|c w IH]; simpl; [reflexivity | now rewrite IH].
Qed.

Lemma star_g_sound {T} (p : N -> bool) (k : cont T) x g :
  forall rest pre, star_g p pre rest g k = Some x ->
  exists w rest', rest = w ++ rest' /\ Forall (fun c => p c = true) w
                  /\ k (rev w ++ pre) rest' g = Some x.
Proof.
  induction rest as [|c rest IH]; intros pre H; simpl in H.
  - exists [], []. auto.
  - destruct (p c) eqn:Hp.
    + destruct (star_g p (c :: pre) rest g k) eqn:E.
      * inversion H; subst.
        destruct (IH (c :: pre) E) as (w & rest' & -> & Hw & Hk).
        exists (c :: w), rest'. simpl. rewrite <- app_assoc. auto.
      * exists [], (c :: rest). auto.
    + exists [], (c :: rest). auto.
Qed.

Lemma star_l_sound {T} (p : N -> bool) (k : cont T) x g :
  forall rest pre, star_l p pre rest g k = Some x ->
  exists w rest', rest = w ++ rest' /\ Forall (fun c => p c = true) w
                  /\ k (rev w ++ pre) rest' g = Some x.
Proof.
  induction rest as [|c rest IH]; intros pre H; simpl in H.
  - destruct (k pre [] g) eqn:E; inversion H; subst. exists [], []. auto.
  - destruct (k pre (c :: rest) g) eqn:E.
    + inversion H; subst. exists [], (c :: rest). auto.
    + destruct (p c) eqn:Hp; [|discriminate].
      destruct (IH (c :: pre) H) as (w & rest' & -> & Hw & Hk).
      exists (c :: w), rest'. simpl. rewrite <- app_assoc. auto.
Qed.

Ltac zero_width := exists []; eexists; eexists; split; [reflexivity|];
  split; [constructor|]; split; [split; [left; reflexivity | simpl; tauto]|];
  assumption.

Lemma m_sound (r : re) : forall T pre rest g (k : cont T) x,
  m r pre rest g k = Some x ->
  exists w rest' g', rest = w ++ rest' /\ lang r w /\ captured r rest g g'
                     /\ k (rev w ++ pre) rest' g' = Some x.
Proof.
  induction r as [| p | r1 IH1 r2 IH2 | r1 IH1 r2 IH2 | p greedy | r1 IH1 | r1 IH1
                  | | | | wp]; intros T pre rest g k x H; simpl in H.
  - zero_width.
  - destruct rest as [|c rest]; [discriminate|].
    destruct (p c) eqn:Hp; [|discriminate].
    exists [c], rest, g. repeat split; auto using lang_chr. simpl; tauto.
  - destruct (IH1 _ _ _ _ _ _ H) as (w1 & rest1 & g1 & -> & L1 & [C1 M1] & H1).
    destruct (IH2 _ _ _ _ _ _ H1) as (w2 & rest2 & g2 & -> & L2 & [C2 M2] & H2).
    exists (w1 ++ w2), rest2, g2. rewrite <- app_assoc.
    split; [reflexivity|]. split; [now constructor|].
    split; [|rewrite rev_app_distr, <- app_assoc; exact H2].
    assert (Hinc : forall w0, incl w0 (w2 ++ rest2) -> incl w0 (w1 ++ w2 ++ rest2))
      by (intros w0 Hw0; apply incl_appr; exact Hw0).
    split.
    + destruct C2 as [-> | (w0 & -> & G & I)].
      * destruct C1 as [-> | (w0 & -> & G & I)]; [left; reflexivity|].
        right. exists w0. simpl. auto.
      * right. exists w0. simpl. auto.
    + intros [Mc | Mc].
      * destruct C2 as [-> | (w0 & -> & G & I)].
        -- destruct (M1 Mc) as (w0 & -> & G & I). exists w0. simpl. auto.
        -- exists w0. simpl. auto.
      * destruct (M2 Mc) as (w0 & -> & G & I). exists w0. simpl. auto.
  - destruct (m r1 pre rest g k) eqn:E.
    + inversion H; subst.
      destruct (IH1 _ _ _ _ _ _ E) as (w & rest' & g' & -> & L & [C M] & Hk).
      exists w, rest', g'. split; [reflexivity|]. split; [now apply lang_altl|].
      split; [|exact Hk]. split.
      * destruct C as [-> | (w0 & -> & G & I)]; [now left|].
        right. exists w0. simpl. auto.
      * intros [Mc _]. destruct (M Mc) as (w0 & -> & G & I). exists w0. simpl. auto.
    + destruct (IH2 _ _ _ _ _ _ H) as (w & rest' & g' & -> & L & [C M] & Hk).
      exists w, rest', g'. split; [reflexivity|]. split; [now apply lang_altr|].
      split; [|exact Hk]. split.
      * destruct C as [-> | (w0 & -> & G & I)]; [now left|].
        right. exists w0. simpl. auto.
      * intros [_ Mc]. destruct (M Mc) as (w0 & -> & G & I). exists w0. simpl. auto.
  - destruct greedy; [apply star_g_sound in H | apply star_l_sound in H];
      destruct H as (w & rest' & -> & Hw & Hk); exists w, rest', g;
      (split; [reflexivity|]); (split; [now constructor|]);
      (split; [split; [now left | simpl; tauto] | exact Hk]).
  - destruct (IH1 _ _ _ _ _ _ H) as (w & rest' & g' & -> & L & _ & Hk).
    rewrite firstn_length_app in Hk.
    exists w, rest', (Some w). split; [reflexivity|]. split; [now constructor|].
    split; [|exact Hk].
    assert (I : incl w (w ++ rest')) by apply incl_appl, incl_refl.
    split; [right | intros _]; exists w; simpl; auto.
  - destruct (m r1 pre rest g (fun _ _ _ => Some tt)); [|discriminate]. zero_width.
  - destruct pre; [|discriminate]. zero_width.
  - destruct pre as [|c pre]; [zero_width|].
    destruct (N.eqb c nl); [zero_width | discriminate].
  - destruct rest as [|c [|c' rest]]; [zero_width| |discriminate].
    destruct (N.eqb c nl); [zero_width | discriminate].
  - destruct (xorb (word_at wp pre) (word_at wp rest)); [zero_width | discriminate].
Qed.

Lemma search_from_sound (r : re) : forall rest pre ma skipped pre' rest' g,
  search_from r pre rest ma = Some (skipped, pre', rest', g) ->
  exists w, rest = skipped ++ w ++ rest' /\ lang r w
    /\ (g = None \/ exists w0, g = Some w0 /\ in_group r w0 /\ incl w0 rest)
    /\ (must_cap r -> exists w0, g = Some w0 /\ in_group r w0 /\ incl w0 rest).
Proof.
  induction rest as [|c rest IH]; intros pre ma skipped pre' rest' g H; cbn [search_from] in H;
  match type of H with
  | context [m r pre ?s None ?kk] => destruct (m r pre s None kk) as [[[p1 r1] g1]|] eqn:E
  end.
  all: try (inversion H; subst;
    destruct (m_sound _ _ _ _ _ _ _ E) as (w & rest'' & g'' & Hrest & L & [C M] & Hk);
    cbv beta in Hk;
    match type of Hk with context [if ?b then _ else _] => destruct b end; [discriminate|];
    inversion Hk; subst; exists w; split; [exact Hrest|]; split; [exact L|];
    split; [destruct C as [-> | X]; [now left | now right] | exact M]).
  - discriminate.
  - destruct (search_from r (c :: pre) rest false) as [[[[sk p] r'] g']|] eqn:E2;
      [|discriminate].
    inversion H; subst.
    destruct (IH _ _ _ _ _ _ E2) as (w & -> & L & C & M).
    assert (Hinc : forall w0, incl w0 (sk ++ w ++ rest') -> incl w0 (c :: sk ++ w ++ rest'))
      by (intros w0 Hw0; apply incl_tl; exact Hw0).
    exists w. split; [reflexivity|]. split; [exact L|]. split.
    + destruct C as [-> | (w0 & -> & G & I)]; [now left | right; eauto].
    + intros Mc. destruct (M Mc) as (w0 & -> & G & I). eauto.
Qed.

Lemma iter_sound (r : re) : forall fuel pre rest ma l tail,
  iter fuel r pre rest ma = (l, tail) ->
  (forall skipped mt g, In (skipped, mt, g) l ->
     incl skipped rest
     /\ (g = None \/ exists w0, g = Some w0 /\ in_group r w0 /\ incl w0 rest)
     /\ (must_cap r -> exists w0, g = Some w0 /\ in_group r w0 /\ incl w0 rest))
  /\ incl tail rest.
Proof.
  induction fuel as [|fuel IH]; intros pre rest ma l tail H; cbn [iter] in H.
  - inversion H; subst. split; [intros ? ? ? []| apply incl_refl].
  - destruct (search_from r pre rest ma) as [[[[sk p] r'] g]|] eqn:E.
    + destruct (iter fuel r p r' _) as [l' tail'] eqn:E2.
      inversion H; subst.
      destruct (search_from_sound _ _ _ _ _ _ _ _ E) as (w & Hrest & L & C & M).
      destruct (IH _ _ _ _ _ E2) as [Hl Ht].
      assert (Hinc : incl r' rest)
        by (rewrite Hrest; do 2 apply incl_appr; apply incl_refl).
      split; [|eapply incl_tran; eauto].
      intros sk0 mt0 g0 [Heq | Hin].
      * inversion Heq; subst sk0 mt0 g0. split; [rewrite Hrest; apply incl_appl, incl_refl|].
        split; [exact C | exact M].
      * destruct (Hl _ _ _ Hin) as (I & C0 & M0).
        split; [eapply incl_tran; eauto|]. split.
        -- destruct C0 as [-> | (w0 & -> & G & I0)]; [now left|].
           right. exists w0. split; [reflexivity|]. split; [exact G|].
           eapply incl_tran; eauto.
        -- intros Mc. destruct (M0 Mc) as (w0 & -> & G & I0). exists w0.
           split; [reflexivity|]. split; [exact G|]. eapply incl_tran; eauto.
    + inversion H; subst. split; [intros ? ? ? []| apply incl_refl].
Qed.

Lemma re_split_incl (r : re) (s piece : pystr) :
  In piece (re_split r s) -> incl piece s.
Proof.
  unfold re_split, finditer.
  destruct (iter _ r [] s false) as [l tail] eqn:E.
  destruct (iter_sound _ _ _ _ _ _ _ E) as [Hl Ht].
  intros Hin. apply in_app_or in Hin. destruct Hin as [Hin | [<- | []]]; [|exact Ht].
  apply in_map_iff in Hin. destruct Hin as [[[sk mt] g] [<- Hin]].
  exact (proj1 (Hl _ _ _ Hin)).
Qed.

Lemma re_search_sound (r : re) (s g : pystr) :
  re_search r s = Some g -> must_cap r -> in_group r g /\ incl g s.
Proof.
  unfold re_search.
  destruct (search_from r [] s false) as [[[[sk p] r'] go]|] eqn:E; [|discriminate].
  intros H Mc. inversion H; subst.
  destruct (search_from_sound _ _ _ _ _ _ _ _ E) as (w & _ & _ & _ & M).
  destruct (M Mc) as (w0 & -> & G & I). simpl. auto.
Qed.

Lemma re_search_none_sub (r : re) (s : pystr) :
  search_from r [] s false = None -> re_sub1 r s = s.
Proof.
  intros H. unfold re_sub1, finditer.
  replace (2 * length s + 2)%nat with (S (2 * length s + 1)) by lia.
  cbn [iter]. rewrite H. reflexivity.
Qed.

Lemma drop_while_incl (p : N -> bool) (s : pystr) : incl (drop_while p s) s.
Proof.
  induction s as [|c s IH]; simpl; [apply incl_refl|].
  destruct (p c); [apply incl_tl, IH | apply incl_refl].
Qed.

Lemma rev_incl (s : pystr) : incl (rev s) s.
Proof. intros x Hx. now apply in_rev. Qed.

Lemma py_strip_incl (s : pystr) : incl (py_strip s) s.
Proof.
  unfold py_strip. eapply incl_tran; [apply rev_incl|].
  eapply incl_tran; [apply drop_while_incl|].
  eapply incl_tran; [apply rev_incl|]. apply drop_while_incl.
Qed.

Lemma lang_lit (s : string) (w : pystr) : lang (lit s) w -> w = s2l s.
Proof.
  revert w. induction s as [|a s IH]; intros w H.
  { inversion H; reflexivity. }
  change (lit (String a s)) with (Seq (Chr (N.eqb (N_of_ascii a))) (lit s)) in H.
  inversion H; subst.
  match goal with H1 : lang (Chr _) _ |- _ => inversion H1; subst end.
  match goal with H2 : lang (lit s) _ |- _ => rewrite (IH _ H2) end.
  match goal with E : N.eqb _ _ = true |- _ => apply N.eqb_eq in E; subst end.
  reflexivity.
Qed.

Lemma lang_lit_ci (s : string) (w : pystr) :
  lang (lit_ci s) w -> Forall2 (fun x c => ci_class x c = true) (s2l s) w.
Proof.
  revert w. induction s as [|a s IH]; intros w H.
  { inversion H; constructor. }
  change (lit_ci (String a s)) with (Seq (Chr (ci_class (N_of_ascii a))) (lit_ci s)) in H.
  inversion H; subst.
  match goal with H1 : lang (Chr _) _ |- _ => inversion H1; subst end.
  constructor; [assumption | now apply IH].
Qed.

Lemma lang_alts (l : list re) (w : pystr) :
  lang (alts l) w -> exists r, In r l /\ lang r w.
Proof.
  induction l as [|r l IH]; intros H; simpl in H.
  - inversion H; discriminate.
  - inversion H; subst.
    + exists r. simpl. auto.
    + destruct (IH ltac:(assumption)) as (r' & Hin & L). exists r'. simpl. auto.
Qed.

Fixpoint has_group (r : re) : bool :=
  match r with
  | Group _ => true
  | Seq r1 r2 | Alt r1 r2 => has_group r1 || has_group r2
  | _ => false
  end.

Lemma has_group_false (r : re) (w : pystr) : has_group r = false -> ~ in_group r w.
Proof.
  induction r; simpl; try tauto; try discriminate;
    intros H; apply Bool.orb_false_iff in H; tauto.
Qed.

Lemma ci_class_in (x c : N) :
  is_upper_ascii x || is_lower_ascii x = true -> ci_class x c = true ->
  In c [lower_ascii x; lower_ascii x - 32; 304; 305; 383; 8490].
Proof.
  intros Hx H. unfold ci_class in H. rewrite Hx in H. unfold ci_eq in H.
  repeat first [rewrite Bool.orb_true_iff in H | rewrite Bool.andb_true_iff in H
               | rewrite N.eqb_eq in H].
  simpl.
  destruct H as [[[H | [_ [H | H]]] | [_ H]] | [_ H]]; try (subst c; tauto).
  unfold lower_ascii at 1 in H. destruct (is_upper_ascii c).
  - right. left. lia.
  - left. symmetry. exact H.
Qed.

Definition intensity_levels : list pystr := [s2l "Low"; s2l "Medium"; s2l "High"].
Definition level_pattern : re := alts [lit_ci "High"; lit_ci "Medium"; lit_ci "Low"].

Definition no_dotted_i (s : pystr) : Prop := forall c, In c s -> c <> 304 /\ c <> 305.

Ltac ci_cases Hd :=
  repeat match goal with
  | H : ci_class ?x ?y = true |- _ =>
      is_var y;
      let I := fresh "I" in
      pose proof (ci_class_in x y eq_refl H) as I; vm_compute in I;
      destruct I as [<- | [<- | [<- | [<- | [<- | [<- | []]]]]]];
      try (vm_compute in H; discriminate H); clear H;
      try (exfalso; refine (proj1 (Hd 304 _) eq_refl); simpl; tauto);
      try (exfalso; refine (proj2 (Hd 305 _) eq_refl); simpl; tauto)
  end.

Ltac peel_forall2 :=
  repeat match goal with
  | H : Forall2 _ (_ :: _) _ |- _ => inversion H; subst; clear H
  | H : Forall2 _ [] _ |- _ => inversion H; subst; clear H
  end.

Ltac in_levels :=
  vm_compute; first [left; reflexivity | right; left; reflexivity
                    | right; right; left; reflexivity].

(** A case-insensitive spelling of High, Medium or Low without a dotted
    or dotless i is title-cased into the level itself. *)
Lemma title_of_level (w : pystr) :
  lang level_pattern w -> no_dotted_i w -> In (py_title w) intensity_levels.
Proof.
  intros L Hd. apply lang_alts in L. destruct L as (r & Hr & L).
  destruct Hr as [<- | [<- | [<- | []]]]; apply lang_lit_ci in L.
  - replace (s2l "High") with [72; 105; 103; 104] in L by reflexivity.
    peel_forall2. ci_cases Hd; in_levels.
  - replace (s2l "Medium") with [77; 101; 100; 105; 117; 109] in L by reflexivity.
    peel_forall2. ci_cases Hd; in_levels.
  - replace (s2l "Low") with [76; 111; 119] in L by reflexivity.
    peel_forall2. ci_cases Hd; in_levels.
Qed.

(** ** The claims *)

Section Claims.

Variable py_lower : pystr -> pystr.
Variable is_digit : N -> bool.
Variable is_word : N -> bool.

Definition synthesized_insight (text default_type : pystr) : ParsedInsight :=
  mkInsight default_type (s2l "Medium") (_extract_main_content text)
            fallback_recommendation (6 # 10).

Lemma parse_insights_not_nil (text default_type : pystr) :
  parse_insights_from_text py_lower is_digit is_word text default_type <> [].
Proof.
  unfold parse_insights_from_text.
  destruct (_parse_structured_format _ _ _ text default_type);
    [destruct (_parse_unstructured_format _ _ _ text default_type)|]; discriminate.
Qed.

(** C1: for every input string and every default type,
    [parse_insights_from_text] returns at least one insight; when the
    structured and the unstructured stages yield nothing, it returns
    exactly one synthesized insight, of intensity Medium and confidence
    0.6. *)
Theorem parse_insights_from_text_nonempty (text default_type : pystr) :
  parse_insights_from_text py_lower is_digit is_word text default_type <> []
  /\ (_parse_structured_format py_lower is_digit is_word text default_type = [] ->
      _parse_unstructured_format py_lower is_digit is_word text default_type = [] ->
      parse_insights_from_text py_lower is_digit is_word text default_type
      = [synthesized_insight text default_type]
      /\ intensity (synthesized_insight text default_type) = s2l "Medium"
      /\ confidence (synthesized_insight text default_type) = 6 # 10).
Proof.
  split; [apply parse_insights_not_nil|].
  intros Hs Hu. unfold parse_insights_from_text. rewrite Hs, Hu. auto.
Qed.

(** C2: both entry points are total functions; every absent pattern
    falls back: without a "Document Type:" match the document type comes
    from the first-lines scan or is "Unknown Document", without
    "Category:" the category is "Legal", without a "Confidence:" match the
    confidence is "Medium", and when the structured stage yields nothing
    the unstructured stage decides, with the synthesized insight last. *)
Theorem parsers_fall_back_to_defaults (text : pystr) :
  let info := parse_document_type py_lower text in
  (re_search pat_document_type text = None ->
     document_type info =
     match doc_type_from_lines py_lower (firstn 3 (split_on nl text)) with
     | Some line => line
     | None => s2l "Unknown Document"
     end)
  /\ (re_search pat_category text = None -> category info = s2l "Legal")
  /\ (re_search pat_confidence text = None -> doc_confidence info = s2l "Medium")
  /\ (forall default_type,
        _parse_structured_format py_lower is_digit is_word text default_type = [] ->
        parse_insights_from_text py_lower is_digit is_word text default_type
        = match _parse_unstructured_format py_lower is_digit is_word text default_type with
          | [] => [synthesized_insight text default_type]
          | insights => insights
          end)
  /\ (forall default_type,
        parse_insights_from_text py_lower is_digit is_word text default_type <> []).
Proof.
  cbv zeta. unfold parse_document_type.
  split; [|split; [|split; [|split]]].
  - intros H. rewrite H. reflexivity.
  - intros H. rewrite H. reflexivity.
  - intros H. rewrite H. reflexivity.
  - intros default_type H. unfold parse_insights_from_text. rewrite H.
    destruct (_parse_unstructured_format _ _ _ text default_type); reflexivity.
  - intros default_type. apply parse_insights_not_nil.
Qed.

Definition liability_block : pystr :=
  s2l "RISK: Excessive liability exposure" ++ [nl] ++ s2l "INTENSITY: High" ++ [nl]
  ++ s2l "RECOMMENDATION: Add a liability cap.".

(** C4: the block "RISK: Excessive liability exposure\nINTENSITY:
    High\nRECOMMENDATION: Add a liability cap." yields, for any default
    type, exactly one insight: type risk, intensity High, description
    "Excessive liability exposure", recommendation "Add a liability
    cap.". *)
Theorem liability_block_insight (default_type : pystr) :
  _parse_single_block py_lower is_word liability_block default_type
  = Some (mkInsight (s2l "risk") (s2l "High") (s2l "Excessive liability exposure")
                    (s2l "Add a liability cap.") (8 # 10)).
Proof. vm_compute. reflexivity. Qed.

Lemma existsb_false_in {A} (f : A -> bool) (l : list A) (x : A) :
  existsb f l = false -> In x l -> f x = false.
Proof.
  intros H Hx. destruct (f x) eqn:E; [|reflexivity].
  rewrite <- H. symmetry. apply existsb_exists. eauto.
Qed.

Lemma in_group_intensity (w : pystr) : in_group pat_intensity w -> lang level_pattern w.
Proof.
  unfold pat_intensity, seqs. cbn [fold_right in_group]. intros H.
  repeat match goal with
  | H : _ \/ _ |- _ => destruct H as [H | H]
  | H : False |- _ => contradiction
  | H : lang _ w |- _ => exact H
  | H : in_group ?r _ |- _ => exfalso; exact (has_group_false r _ eq_refl H)
  end.
Qed.

Definition content_names : list pystr :=
  [s2l "risk"; s2l "compliance"; s2l "suggestion"; s2l "analysis"].

Lemma first_label_name (b tn g : pystr) :
  first_label content_patterns b = Some (tn, g) -> In tn content_names.
Proof.
  unfold content_patterns. cbn [first_label].
  repeat (destruct (re_search _ b); [intros H; inversion H; subst; simpl; tauto|]).
  discriminate.
Qed.

Definition type_range (default_type : pystr) : list pystr :=
  [s2l "risk"; s2l "compliance"; s2l "suggestion"; default_type].

Lemma infer_intensity_level (t : pystr) :
  In (_infer_intensity py_lower is_word t) intensity_levels.
Proof.
  unfold _infer_intensity. cbv zeta.
  destruct (re_findall _ t);
    repeat match goal with |- context [if ?b then _ else _] => destruct b end;
    in_levels.
Qed.

Lemma infer_type_range (t default_type : pystr) :
  In (_infer_type py_lower t default_type) (type_range default_type).
Proof.
  unfold _infer_type, type_keywords. cbn [first_type].
  repeat match goal with |- context [if ?b then _ else _] => destruct b end;
    simpl; auto 6.
Qed.

Lemma create_insight_range (x default_type : pystr) :
  In (type (_create_insight_from_text py_lower is_word x default_type)) (type_range default_type)
  /\ In (intensity (_create_insight_from_text py_lower is_word x default_type)) intensity_levels.
Proof.
  split; [apply infer_type_range | apply infer_intensity_level].
Qed.

Lemma unstructured_elems (t default_type : pystr) (i : ParsedInsight) :
  In i (_parse_unstructured_format py_lower is_digit is_word t default_type) ->
  exists x, i = _create_insight_from_text py_lower is_word x default_type.
Proof.
  unfold _parse_unstructured_format. cbv zeta. intros H.
  destruct (map _ (firstn 5 (re_findall pat_bullet_points t))) as [|i1 l1] eqn:E1.
  - destruct (map _ (firstn 5 (re_findall (pat_numbered_points is_digit) t)))
      as [|i2 l2] eqn:E2.
    + apply in_map_iff in H. destruct H as (x & <- & _). eauto.
    + rewrite <- E2 in H. apply in_map_iff in H. destruct H as (x & <- & _). eauto.
  - rewrite <- E1 in H. apply in_map_iff in H. destruct H as (x & <- & _). eauto.
Qed.

Lemma structured_elems (t default_type : pystr) (i : ParsedInsight) :
  In i (_parse_structured_format py_lower is_digit is_word t default_type) ->
  exists b, In b (_split_into_blocks is_digit t)
            /\ _parse_single_block py_lower is_word b default_type = Some i.
Proof.
  unfold _parse_structured_format. intros H. apply in_flat_map in H.
  destruct H as (b & Hb & Hi).
  destruct (_parse_single_block py_lower is_word b default_type) eqn:E; [|destruct Hi].
  destruct Hi as [<- | []]. eauto.
Qed.

Lemma blocks_incl (t b : pystr) : In b (_split_into_blocks is_digit t) -> incl b t.
Proof.
  unfold _split_into_blocks. intros H. apply in_map_iff in H.
  destruct H as (b0 & <- & Hb0). apply filter_In in Hb0. destruct Hb0 as [Hin _].
  eapply incl_tran; [apply py_strip_incl|]. eapply re_split_incl; eauto.
Qed.

Lemma single_block_range (b default_type : pystr) (i : ParsedInsight) :
  _parse_single_block py_lower is_word b default_type = Some i ->
  In (type i) (type_range default_type)
  /\ (no_dotted_i b -> In (intensity i) intensity_levels).
Proof.
  unfold _parse_single_block.
  destruct (first_label content_patterns b) as [[tn g]|] eqn:Ef; [|discriminate].
  cbv beta iota zeta. destruct (py_strip g) as [|c d]; [discriminate|].
  intros H. inversion H; subst i. cbn [type intensity]. split.
  - match goal with |- context [if str_eqb tn ?a then _ else _] =>
      destruct (str_eqb tn a) eqn:Ea end; [simpl; auto 6|].
    pose proof (first_label_name _ _ _ Ef) as Hn.
    destruct Hn as [<- | [<- | [<- | [<- | []]]]]; simpl; auto.
    vm_compute in Ea. discriminate.
  - intros Hnd. destruct (re_search pat_intensity b) as [g'|] eqn:Ei.
    + destruct (re_search_sound _ _ _ Ei) as [G I]; [simpl; tauto|].
      apply title_of_level; [now apply in_group_intensity|].
      intros x Hx. apply Hnd, I, Hx.
    + apply infer_intensity_level.
Qed.

Lemma insight_range_aux (text default_type : pystr) (i : ParsedInsight) :
  In i (parse_insights_from_text py_lower is_digit is_word text default_type) ->
  In (type i) (type_range default_type)
  /\ (existsb (fun c => (c =? 304) || (c =? 305)) text = false ->
      In (intensity i) intensity_levels).
Proof.
  unfold parse_insights_from_text. intros H.
  destruct (_parse_structured_format py_lower is_digit is_word text default_type)
    as [|i0 l0] eqn:Es.
  - destruct (_parse_unstructured_format py_lower is_digit is_word text default_type)
      as [|i1 l1] eqn:Eu.
    + destruct H as [<- | []]. cbn [type intensity]. split; [simpl; auto 6|].
      intros _. in_levels.
    + rewrite <- Eu in H. destruct (unstructured_elems _ _ _ H) as (x & ->).
      destruct (create_insight_range x default_type) as [T I]. auto.
  - rewrite <- Es in H. destruct (structured_elems _ _ _ H) as (b & Hb & Hi).
    destruct (single_block_range _ _ _ Hi) as [T I]. split; [exact T|].
    intros Hnd. apply I. intros x Hx.
    apply (blocks_incl _ _ Hb) in Hx.
    pose proof (existsb_false_in _ _ _ Hnd Hx) as Hf.
    apply Bool.orb_false_iff in Hf. destruct Hf as [H1 H2].
    apply N.eqb_neq in H1, H2. auto.
Qed.

Lemma create_recommendation_nonempty (x default_type : pystr) :
  recommendation (_create_insight_from_text py_lower is_word x default_type) <> [].
Proof.
  unfold _create_insight_from_text, _generate_recommendation. cbv zeta.
  cbn [recommendation].
  destruct (str_eqb _ (s2l "risk")); [discriminate|].
  destruct (str_eqb _ _); discriminate.
Qed.

(** The fixed recommendations: the fallback insight's, and the three of
    [_generate_recommendation]. *)
Definition recommendation_templates : list pystr :=
  [fallback_recommendation;
   s2l "Consider mitigating this risk through contract amendments or additional safeguards.";
   s2l "Ensure compliance by consulting legal counsel and updating relevant clauses.";
   s2l "Review this recommendation and consider implementing the suggested improvements."].

Lemma create_recommendation_template (x default_type : pystr) :
  In (recommendation (_create_insight_from_text py_lower is_word x default_type))
     recommendation_templates.
Proof.
  unfold _create_insight_from_text, _generate_recommendation, recommendation_templates.
  cbv zeta. cbn [recommendation].
  destruct (str_eqb _ (s2l "risk")); [simpl; auto|].
  destruct (str_eqb _ _); simpl; auto.
Qed.

(** The preamble test of the first-lines loop of [parse_document_type],
    as a predicate on a trimmed line. *)
Definition qualifying_line (line : pystr) : bool :=
  nonempty line && negb (startswith line (s2l "Based on"))
  && negb (startswith line (s2l "This document")).

Lemma doc_type_from_lines_find (lines : list pystr) :
  doc_type_from_lines py_lower lines =
  match find qualifying_line (map py_strip lines) with
  | Some line =>
      if existsb (fun w => contains (py_lower w) (py_lower line)) doc_types
      then Some line else None
  | None => None
  end.
Proof.
  induction lines as [|a lines IH]; [reflexivity|].
  cbn [doc_type_from_lines map find]. unfold qualifying_line at 1.
  destruct (nonempty (py_strip a) && negb (startswith (py_strip a) (s2l "Based on"))
            && negb (startswith (py_strip a) (s2l "This document")));
    [reflexivity | exact IH].
Qed.

(** Type inference as the spec would put it: the type of the first
    vocabulary, in the order risk, compliance, suggestion, one of whose
    keywords occurs in the lowercased text, else the default type. *)
Definition first_hit_type (text_lower default_type : pystr) : pystr :=
  match find (fun tk => existsb (fun k => contains k text_lower) (snd tk)) type_keywords with
  | Some tk => fst tk
  | None => default_type
  end.

Lemma first_type_find (tl default_type : pystr) (kws : list (pystr * list pystr)) :
  first_type tl kws default_type =
  match find (fun tk => existsb (fun k => contains k tl) (snd tk)) kws with
  | Some tk => fst tk
  | None => default_type
  end.
Proof.
  induction kws as [|[t k] kws IH]; [reflexivity|].
  cbn [first_type find snd fst].
  destruct (existsb (fun k0 => contains k0 tl) k); [reflexivity | exact IH].
Qed.

(** C6 (amended): when the text has no bullet line and no numbered line,
    the unstructured stage makes one insight of confidence 0.7 from each of
    the first three kept sentence fragments whose trimmed length exceeds
    20 (not 10): fragments of 11 to 20 characters are kept by the sentence
    splitter but yield nothing. *)
Theorem sentence_fallback_length_20 (text default_type : pystr) :
  re_findall pat_bullet_points text = [] ->
  re_findall (pat_numbered_points is_digit) text = [] ->
  _parse_unstructured_format py_lower is_digit is_word text default_type
  = map (fun sentence => _create_insight_from_text py_lower is_word sentence default_type)
        (filter (fun sentence => Nat.ltb 20 (length (py_strip sentence)))
                (firstn 3 (_split_into_sentences text)))
  /\ (forall i, In i (_parse_unstructured_format py_lower is_digit is_word text default_type) ->
        confidence i = 7 # 10).
Proof.
  intros Hb Hn. unfold _parse_unstructured_format. rewrite Hb, Hn.
  cbn [firstn map]. split; [reflexivity|].
  intros i Hi. apply in_map_iff in Hi. destruct Hi as (x & <- & _). reflexivity.
Qed.

(** C7 (amended): when no "Document Type:" label resolves a type, the
    document type comes from the first three lines of [text.split('\n')]
    (empty lines count among the three), each trimmed: the first of them
    that is non-empty and does not start with "Based on" or "This document"
    decides; it becomes the type, trimmed, when its lowercase contains a
    word of the vocabulary, and the type stays "Unknown Document"
    otherwise. *)
Theorem document_type_from_first_lines (text : pystr) :
  match re_search pat_document_type text with
  | Some g => py_strip g
  | None => s2l "Unknown Document"
  end = s2l "Unknown Document" ->
  document_type (parse_document_type py_lower text) =
  match find qualifying_line (map py_strip (firstn 3 (split_on nl text))) with
  | Some line =>
      if existsb (fun w => contains (py_lower w) (py_lower line)) doc_types
      then line else s2l "Unknown Document"
  | None => s2l "Unknown Document"
  end.
Proof.
  intros H. unfold parse_document_type. cbv zeta. rewrite H. cbn [document_type].
  rewrite doc_type_from_lines_find.
  match goal with |- context [str_eqb ?a ?b] =>
    replace (str_eqb a b) with true by (vm_compute; reflexivity) end.
  destruct (find _ _); [destruct (existsb _ _)|]; reflexivity.
Qed.

(** C9 (amended): when the structured stage yields nothing, every insight
    returned has a non-empty recommendation, one of the fixed templates:
    the fallback insight's or one of [_generate_recommendation]'s; the
    description may be empty. *)
Theorem fallback_recommendation_nonempty (text default_type : pystr) (i : ParsedInsight) :
  _parse_structured_format py_lower is_digit is_word text default_type = [] ->
  In i (parse_insights_from_text py_lower is_digit is_word text default_type) ->
  In (recommendation i) recommendation_templates /\ recommendation i <> [].
Proof.
  intros Hs H. unfold parse_insights_from_text in H. rewrite Hs in H.
  cbv beta iota zeta in H.
  destruct (_parse_unstructured_format py_lower is_digit is_word text default_type)
    as [|i1 l1] eqn:Eu.
  - destruct H as [<- | []]. cbn [recommendation].
    split; [left; reflexivity|]. unfold fallback_recommendation. discriminate.
  - rewrite <- Eu in H. destruct (unstructured_elems _ _ _ H) as (x & ->).
    split; [apply create_recommendation_template | apply create_recommendation_nonempty].
Qed.

End Claims.

(** ** Claims on the executable instance *)

Definition permit_fragment : pystr := s2l "The permit was reissued yesterday by the office".
Definition hello_fragment : pystr := s2l "Hello there friend".
Definition lease_padded : pystr := s2l "  Lease Agreement  ".
Definition dotless_medium : pystr := (s2l "Med" ++ [305] ++ s2l "um")%list.
Definition dotless_text : pystr := (s2l "RISK: x" ++ [nl] ++ s2l "INTENSITY: " ++ dotless_medium)%list.
Definition risk_keywords : list pystr :=
  match type_keywords with (_, kws) :: _ => kws | [] => [] end.
Definition compliance_keywords : list pystr :=
  match type_keywords with _ :: (_, kws) :: _ => kws | _ => [] end.
Definition review_template : pystr := s2l "Consider reviewing this item carefully.".

Lemma search_none_first_char (a : ascii) (s0 : string) (r : re) (s : pystr) :
  ~ In (N_of_ascii a) s -> search_from (Seq (lit (String a s0)) r) [] s false = None.
Proof.
  intros Hn.
  destruct (search_from (Seq (lit (String a s0)) r) [] s false)
    as [[[[sk p] r'] g]|] eqn:E; [|reflexivity].
  exfalso. destruct (search_from_sound _ _ _ _ _ _ _ _ E) as (w & Hs & L & _).
  inversion L; subst.
  match goal with H1 : lang (lit _) _ |- _ => apply lang_lit in H1; subst end.
  apply Hn. apply in_or_app. right. apply in_or_app. left. apply in_or_app. left.
  left. reflexivity.
Qed.

(** C3 (code bug): the value of an "Intensity:" label is matched against
    [(High|Medium|Low)] under [re.IGNORECASE] and kept as [title()] makes
    it. IGNORECASE equates the dotless i (U+0131) with i, and [title()]
    keeps it, so the label "Med\u0131um" becomes the intensity itself:
    none of high, medium, low, which the parser means to normalize to. *)
Theorem intensity_label_not_normalized :
  parse_insights_py dotless_text (s2l "risk")
    = [mkInsight (s2l "risk") dotless_medium (s2l "x") review_template (8 # 10)]
  /\ ~ In dotless_medium intensity_levels.
Proof.
  split; [vm_compute; reflexivity|].
  vm_compute. intuition discriminate.
Qed.

(** C5 (code bug): the bullet and number alternatives of the block
    separator are not anchored at line starts: [^] without [re.MULTILINE]
    matches only at the start of the text, so a bullet line after the
    first line starts no block, and [\d+\.] has no anchor, so a block
    starts before every run of digits followed by a dot, even inside a
    number. *)
Theorem split_into_blocks_line_start_markers :
  split_into_blocks_py (s2l "Intro" ++ [nl] ++ s2l "- first point")%list
    = [(s2l "Intro" ++ [nl] ++ s2l "- first point")%list]
  /\ split_into_blocks_py (s2l "See 12. here") = [s2l "See"; s2l "1"; s2l "2. here"].
Proof. split; vm_compute; reflexivity. Qed.

(** C6 (amended): instance of [sentence_fallback_length_20]. *)
Lemma sentence_fallback_length_20_witness :
  (re_findall pat_bullet_points permit_fragment = []
   /\ re_findall (pat_numbered_points digit_inst) permit_fragment = [])
  /\ parse_unstructured_py permit_fragment (s2l "suggestion")
     = map (fun sentence => _create_insight_from_text lower_inst word_inst sentence (s2l "suggestion"))
           (filter (fun sentence => Nat.ltb 20 (length (py_strip sentence)))
                   (firstn 3 (_split_into_sentences permit_fragment))).
Proof.
  assert (Hb : re_findall pat_bullet_points permit_fragment = []) by (vm_compute; reflexivity).
  assert (Hn : re_findall (pat_numbered_points digit_inst) permit_fragment = [])
    by (vm_compute; reflexivity).
  split; [split; assumption|].
  exact (proj1 (sentence_fallback_length_20 lower_inst digit_inst word_inst _ _ Hb Hn)).
Defined.

(** C6: an 18-character fragment is kept by the sentence splitter and
    yields no insight. *)
Lemma sentence_fallback_counterexample :
  _parse_structured_format lower_inst digit_inst word_inst hello_fragment (s2l "risk") = []
  /\ re_findall pat_bullet_points hello_fragment = []
  /\ re_findall (pat_numbered_points digit_inst) hello_fragment = []
  /\ _split_into_sentences hello_fragment = [hello_fragment]
  /\ length hello_fragment = 18%nat
  /\ parse_unstructured_py hello_fragment (s2l "risk") = [].
Proof. repeat split; vm_compute; reflexivity. Qed.

(** C7 (amended): instance of [document_type_from_first_lines]. *)
Lemma document_type_from_first_lines_witness :
  match re_search pat_document_type lease_padded with
  | Some g => py_strip g
  | None => s2l "Unknown Document"
  end = s2l "Unknown Document"
  /\ document_type (parse_document_type_py lease_padded) =
     match find qualifying_line (map py_strip (firstn 3 (split_on nl lease_padded))) with
     | Some line =>
         if existsb (fun w => contains (lower_inst w) (lower_inst line)) doc_types
         then line else s2l "Unknown Document"
     | None => s2l "Unknown Document"
     end.
Proof.
  assert (H : match re_search pat_document_type lease_padded with
              | Some g => py_strip g
              | None => s2l "Unknown Document"
              end = s2l "Unknown Document") by (vm_compute; reflexivity).
  split; [exact H|].
  exact (document_type_from_first_lines lower_inst lease_padded H).
Defined.

(** C7: a type-naming line after blank lines is not among the first three
    lines, and the line taken is trimmed, not verbatim. *)
Lemma document_type_from_first_lines_counterexample :
  document_type (parse_document_type_py ([nl; nl; nl] ++ s2l "Lease Agreement")%list)
    = s2l "Unknown Document"
  /\ document_type (parse_document_type_py lease_padded) = s2l "Lease Agreement".
Proof. split; vm_compute; reflexivity. Qed.

(** C8 (amended): the markdown-stripping step leaves a string with no
    asterisk and no underscore unchanged, so it is idempotent on every
    output that has neither. *)
Theorem strip_markdown_unmarked (s : pystr) :
  existsb (fun c => (c =? 42) || (c =? 95)) s = false ->
  strip_markdown s = s /\ strip_markdown (strip_markdown s) = strip_markdown s.
Proof.
  intros H.
  assert (N42 : ~ In 42 s).
  { intros Hi. pose proof (existsb_false_in _ _ _ H Hi) as E. discriminate E. }
  assert (N95 : ~ In 95 s).
  { intros Hi. pose proof (existsb_false_in _ _ _ H Hi) as E. discriminate E. }
  assert (E : strip_markdown s = s).
  { unfold strip_markdown, pat_md_uitalic, pat_md_ubold, pat_md_italic, pat_md_bold, seqs.
    cbn [fold_right].
    rewrite (re_search_none_sub _ s) by (apply search_none_first_char; exact N42).
    rewrite (re_search_none_sub _ s) by (apply search_none_first_char; exact N42).
    rewrite (re_search_none_sub _ s) by (apply search_none_first_char; exact N95).
    rewrite (re_search_none_sub _ s) by (apply search_none_first_char; exact N95).
    reflexivity. }
  split; [exact E | rewrite E; exact E].
Qed.

(** C8 (amended): instance of [strip_markdown_unmarked]. *)
Lemma strip_markdown_unmarked_witness :
  existsb (fun c => (c =? 42) || (c =? 95)) (s2l "plain text") = false
  /\ strip_markdown (s2l "plain text") = s2l "plain text".
Proof.
  assert (H : existsb (fun c => (c =? 42) || (c =? 95)) (s2l "plain text") = false)
    by (vm_compute; reflexivity).
  split; [exact H|]. exact (proj1 (strip_markdown_unmarked _ H)).
Defined.

(** C8: stripping "**c*d*" leaves "*cd*", which a second stripping turns
    into "cd". *)
Lemma strip_markdown_counterexample :
  strip_markdown (s2l "**c*d*") = s2l "*cd*" /\ strip_markdown (s2l "*cd*") = s2l "cd".
Proof. split; vm_compute; reflexivity. Qed.

(** C9 (amended): instance of [fallback_recommendation_nonempty]. *)
Lemma fallback_recommendation_nonempty_witness :
  _parse_structured_format lower_inst digit_inst word_inst hello_fragment (s2l "risk") = []
  /\ In (mkInsight (s2l "risk") (s2l "Medium") hello_fragment fallback_recommendation (6 # 10))
        (parse_insights_py hello_fragment (s2l "risk"))
  /\ In fallback_recommendation recommendation_templates
  /\ fallback_recommendation <> [].
Proof.
  assert (Hs : _parse_structured_format lower_inst digit_inst word_inst hello_fragment (s2l "risk") = [])
    by (vm_compute; reflexivity).
  assert (Hi : In (mkInsight (s2l "risk") (s2l "Medium") hello_fragment fallback_recommendation (6 # 10))
                  (parse_insights_py hello_fragment (s2l "risk")))
    by (vm_compute; left; reflexivity).
  split; [exact Hs|]. split; [exact Hi|].
  exact (fallback_recommendation_nonempty lower_inst digit_inst word_inst _ _ _ Hs Hi).
Defined.

(** C9: the claim holds only when the structured stage yields nothing. A
    structured block whose "RECOMMENDATION:" value is only markdown
    asterisks gives an insight with an empty recommendation, as the
    stripping step removes them all; and the fallback insight for the
    empty text has an empty description. *)
Lemma fallback_description_counterexample :
  parse_insights_py (s2l "RISK: a" ++ [nl] ++ s2l "RECOMMENDATION: ** **")%list (s2l "risk")
    = [mkInsight (s2l "risk") (s2l "Low") (s2l "a") [] (8 # 10)]
  /\ _parse_structured_format lower_inst digit_inst word_inst
       (s2l "RISK: a" ++ [nl] ++ s2l "RECOMMENDATION: ** **")%list (s2l "risk") <> []
  /\ parse_insights_py [] (s2l "risk")
    = [mkInsight (s2l "risk") (s2l "Medium") [] fallback_recommendation (6 # 10)].
Proof.
  split; [vm_compute; reflexivity|].
  split; [vm_compute; discriminate|].
  vm_compute. reflexivity.
Qed.

(** C10 (amended): the inferred type is that of the first vocabulary, in
    the order risk, compliance, suggestion, with a keyword occurring as a
    substring of the lowercased fragment; so "issue" inside "reissued"
    makes a fragment with no risk word a risk under the default type
    suggestion. *)
Theorem infer_type_first_substring_hit (py_lower : pystr -> pystr) (frag default_type : pystr) :
  _infer_type py_lower frag default_type = first_hit_type (py_lower frag) default_type
  /\ _infer_type lower_inst permit_fragment (s2l "suggestion") = s2l "risk"
  /\ existsb (fun w => existsb (str_eqb w) risk_keywords)
             (split_on 32 (lower_inst permit_fragment)) = false.
Proof.
  split; [unfold _infer_type, first_hit_type; apply first_type_find|].
  split; vm_compute; reflexivity.
Qed.

(** C10: a fragment with a compliance keyword is a risk when it also has a
    risk keyword. *)
Lemma infer_type_counterexample :
  _infer_type lower_inst (s2l "legal issue") (s2l "suggestion") = s2l "risk"
  /\ In (s2l "legal") compliance_keywords
  /\ contains (s2l "legal") (lower_inst (s2l "legal issue")) = true.
Proof.
  split; [vm_compute; reflexivity|].
  split; [vm_compute; intuition|]. vm_compute; reflexivity.
Qed.

(** ** Further properties of the parser and of its caller *)

Definition has_dotted_i (t : pystr) : bool := existsb (fun c => (c =? 304) || (c =? 305)) t.

Definition no_dotted_outcome (o : option pystr) : bool :=
  match o with Some t => negb (has_dotted_i t) | None => true end.

Definition n_succeeded (outcomes : list (option pystr)) : nat :=
  length (filter (fun o => match o with Some _ => true | None => false end) outcomes).

(** The part of an insight that does not depend on the default type. *)
Definition insight_payload (i : ParsedInsight) : pystr * pystr * Q :=
  (intensity i, description i, confidence i).

Definition lower_levels : list pystr := [s2l "low"; s2l "medium"; s2l "high"].

Lemma drop_while_idem (p : N -> bool) (s : pystr) :
  drop_while p (drop_while p s) = drop_while p s.
Proof.
  induction s as [|c s IH]; [reflexivity|]. cbn [drop_while].
  destruct (p c) eqn:E; [exact IH | cbn [drop_while]; rewrite E; reflexivity].
Qed.

Lemma drop_while_head (p : N -> bool) (s t : pystr) (c : N) :
  drop_while p s = c :: t -> p c = false.
Proof.
  induction s as [|x s IH]; cbn [drop_while]; [discriminate|].
  destruct (p x) eqn:E; [exact IH | intros H; inversion H; subst; exact E].
Qed.

Lemma drop_while_suffix (p : N -> bool) (s : pystr) :
  exists pre, s = pre ++ drop_while p s.
Proof.
  induction s as [|c s IH]; [exists []; reflexivity|]. cbn [drop_while].
  destruct (p c); [destruct IH as (pre & Hp); exists (c :: pre); simpl; congruence|].
  exists []; reflexivity.
Qed.

Lemma py_strip_idem (s : pystr) : py_strip (py_strip s) = py_strip s.
Proof.
  unfold py_strip at 2 3.
  set (A := drop_while is_space s). set (B := drop_while is_space (rev A)).
  assert (HB : drop_while is_space (rev B) = rev B).
  { destruct (drop_while_suffix is_space (rev A)) as (pre & Hpre).
    fold B in Hpre.
    assert (HA : A = rev B ++ rev pre)
      by (rewrite <- rev_app_distr, <- Hpre, rev_involutive; reflexivity).
    destruct (rev B) as [|x t] eqn:E; [reflexivity|].
    assert (Hx : is_space x = false)
      by (apply (drop_while_head is_space s (t ++ rev pre)); fold A; rewrite HA; reflexivity).
    cbn [drop_while]. rewrite Hx. reflexivity. }
  unfold py_strip. rewrite HB, rev_involutive. unfold B. rewrite drop_while_idem.
  reflexivity.
Qed.

Lemma existsb_incl_false {A} (f : A -> bool) (a b : list A) :
  incl a b -> existsb f b = false -> existsb f a = false.
Proof.
  intros Hi Hb. destruct (existsb f a) eqn:E; [|reflexivity].
  apply existsb_exists in E. destruct E as (x & Hx & Fx).
  rewrite <- Hb. symmetry. apply existsb_exists. exists x. split; [apply Hi, Hx | exact Fx].
Qed.

Lemma in_group_level_pattern (w : pystr) : in_group pat_confidence w -> lang level_pattern w.
Proof.
  unfold pat_confidence, seqs. cbn [fold_right in_group]. intros H.
  repeat match goal with
  | H : _ \/ _ |- _ => destruct H as [H | H]
  | H : False |- _ => contradiction
  | H : lang _ w |- _ => exact H
  | H : in_group ?r _ |- _ => exfalso; exact (has_group_false r _ eq_refl H)
  end.
Qed.

Lemma level_lower (py_lower : pystr -> pystr) (w : pystr) :
  map py_lower intensity_levels = lower_levels ->
  In w intensity_levels -> In (py_lower w) lower_levels.
Proof.
  intros HL Hw. rewrite <- HL. apply in_map. exact Hw.
Qed.

Lemma default_type_for_range (i : nat) :
  In (default_type_for i) default_types.
Proof.
  unfold default_type_for. destruct (Nat.ltb i (length default_types)) eqn:E.
  - apply Nat.ltb_lt in E. simpl in E. apply nth_In. simpl. exact E.
  - simpl. auto.
Qed.

Section Extras.
Variable py_lower : pystr -> pystr.
Variable is_digit : N -> bool.
Variable is_word : N -> bool.

Lemma parse_insights_length (text default_type : pystr) :
  (1 <= length (parse_insights_from_text py_lower is_digit is_word text default_type))%nat.
Proof.
  pose proof (parse_insights_not_nil py_lower is_digit is_word text default_type) as H.
  destruct (parse_insights_from_text py_lower is_digit is_word text default_type);
    [contradiction | simpl; lia].
Qed.

Lemma parse_insights_level (text default_type : pystr) (i : ParsedInsight) :
  has_dotted_i text = false ->
  In i (parse_insights_from_text py_lower is_digit is_word text default_type) ->
  In (intensity i) intensity_levels.
Proof.
  intros Hd Hi. exact (proj2 (insight_range_aux py_lower is_digit is_word _ _ _ Hi) Hd).
Qed.

Lemma generic_loop_props (outcomes : list (option pystr)) : forall k,
  Forall (fun i => In (type i) default_types) (generic_loop py_lower is_digit is_word k outcomes)
  /\ (n_succeeded outcomes <= length (generic_loop py_lower is_digit is_word k outcomes))%nat
  /\ (forallb no_dotted_outcome outcomes = true ->
      Forall (fun i => In (intensity i) intensity_levels)
             (generic_loop py_lower is_digit is_word k outcomes)).
Proof.
  induction outcomes as [|[t|] os IH]; intros k; cbn [generic_loop n_succeeded].
  - repeat split; constructor.
  - destruct (IH (S k)) as (T & L & I). unfold n_succeeded in *. cbn [filter length].
    split; [|split].
    + apply Forall_app. split; [|exact T]. apply Forall_forall. intros x Hx.
      destruct (insight_range_aux py_lower is_digit is_word _ _ _ Hx) as [Ht _].
      pose proof (default_type_for_range k) as Hk.
      destruct Ht as [<- | [<- | [<- | [<- | []]]]]; simpl; auto.
    + rewrite length_app. pose proof (parse_insights_length (py_strip t) (default_type_for k)). lia.
    + cbn [forallb no_dotted_outcome]. intros H. apply andb_prop in H. destruct H as [H1 H2].
      apply Forall_app. split; [|exact (I H2)]. apply Forall_forall. intros x Hx.
      apply (parse_insights_level (py_strip t) (default_type_for k)); [|exact Hx].
      apply (existsb_incl_false _ _ t); [apply py_strip_incl|].
      apply Bool.negb_true_iff. exact H1.
  - destruct (IH (S k)) as (T & L & I). split; [exact T|]. split; [exact L|]. exact I.
Qed.

Definition specific_types : list pystr := [s2l "risk"; s2l "compliance"; s2l "suggestion"; s2l "analysis"].

Lemma specific_loop_props (outcomes : list (option pystr)) :
  Forall (fun i => In (type i) specific_types) (specific_loop py_lower is_digit is_word outcomes)
  /\ (n_succeeded outcomes <= length (specific_loop py_lower is_digit is_word outcomes))%nat
  /\ (forallb no_dotted_outcome outcomes = true ->
      Forall (fun i => In (intensity i) intensity_levels)
             (specific_loop py_lower is_digit is_word outcomes)).
Proof.
  induction outcomes as [|[t|] os IH]; cbn [specific_loop n_succeeded].
  - repeat split; constructor.
  - destruct IH as (T & L & I). unfold n_succeeded in *. cbn [filter length].
    split; [|split].
    + apply Forall_app. split; [|exact T]. apply Forall_forall. intros x Hx.
      destruct (insight_range_aux py_lower is_digit is_word _ _ _ Hx) as [Ht _].
      destruct Ht as [<- | [<- | [<- | [<- | []]]]]; simpl; auto.
    + rewrite length_app. pose proof (parse_insights_length (py_strip t) (s2l "analysis")). lia.
    + cbn [forallb no_dotted_outcome]. intros H. apply andb_prop in H. destruct H as [H1 H2].
      apply Forall_app. split; [|exact (I H2)]. apply Forall_forall. intros x Hx.
      apply (parse_insights_level (py_strip t) (s2l "analysis")); [|exact Hx].
      apply (existsb_incl_false _ _ t); [apply py_strip_incl|].
      apply Bool.negb_true_iff. exact H1.
  - exact IH.
Qed.

Lemma single_block_confidence (b default_type : pystr) (i : ParsedInsight) :
  _parse_single_block py_lower is_word b default_type = Some i -> confidence i = 8 # 10.
Proof.
  unfold _parse_single_block.
  destruct (first_label content_patterns b) as [[tn g]|]; [|discriminate].
  cbv beta iota zeta. destruct (py_strip g); [discriminate|].
  intros H. inversion H. reflexivity.
Qed.

Lemma structured_props (text default_type : pystr) :
  (length (_parse_structured_format py_lower is_digit is_word text default_type)
   <= length (_split_into_blocks is_digit text))%nat
  /\ Forall (fun i => confidence i = 8 # 10)
            (_parse_structured_format py_lower is_digit is_word text default_type).
Proof.
  unfold _parse_structured_format.
  induction (_split_into_blocks is_digit text) as [|b bs IH]; [split; [simpl; lia | constructor]|].
  destruct IH as [L C]. cbn [flat_map].
  destruct (_parse_single_block py_lower is_word b default_type) eqn:E; cbn [app length].
  - split; [lia|]. constructor; [exact (single_block_confidence _ _ _ E) | exact C].
  - split; [lia | exact C].
Qed.

Lemma unstructured_props (text default_type : pystr) :
  (length (_parse_unstructured_format py_lower is_digit is_word text default_type) <= 5)%nat
  /\ Forall (fun i => confidence i = 7 # 10)
            (_parse_unstructured_format py_lower is_digit is_word text default_type).
Proof.
  split.
  - unfold _parse_unstructured_format. cbv zeta.
    destruct (firstn 5 (re_findall pat_bullet_points text)) as [|x l] eqn:E1; cbn [map].
    + destruct (firstn 5 (re_findall (pat_numbered_points is_digit) text)) as [|y l'] eqn:E2;
        cbn [map].
      * rewrite length_map.
        pose proof (filter_length_le (fun sentence => Nat.ltb 20 (length (py_strip sentence)))
                      (firstn 3 (_split_into_sentences text))).
        pose proof (firstn_le_length 3 (_split_into_sentences text)). lia.
      * cbn [length]. rewrite length_map.
        pose proof (firstn_le_length 5 (re_findall (pat_numbered_points is_digit) text)) as F.
        rewrite E2 in F. simpl in F. lia.
    + cbn [length]. rewrite length_map.
      pose proof (firstn_le_length 5 (re_findall pat_bullet_points text)) as F.
      rewrite E1 in F. simpl in F. lia.
  - apply Forall_forall. intros i Hi.
    destruct (unstructured_elems py_lower is_digit is_word _ _ _ Hi) as (x & ->). reflexivity.
Qed.

Lemma single_block_payload (b d1 d2 : pystr) :
  option_map insight_payload (_parse_single_block py_lower is_word b d1)
  = option_map insight_payload (_parse_single_block py_lower is_word b d2).
Proof.
  unfold _parse_single_block.
  destruct (first_label content_patterns b) as [[tn g]|]; [|reflexivity].
  cbv beta iota zeta. destruct (py_strip g); reflexivity.
Qed.

Lemma structured_payload (text d1 d2 : pystr) :
  map insight_payload (_parse_structured_format py_lower is_digit is_word text d1)
  = map insight_payload (_parse_structured_format py_lower is_digit is_word text d2).
Proof.
  unfold _parse_structured_format.
  induction (_split_into_blocks is_digit text) as [|b bs IH]; [reflexivity|].
  cbn [flat_map]. pose proof (single_block_payload b d1 d2) as P.
  destruct (_parse_single_block py_lower is_word b d1), (_parse_single_block py_lower is_word b d2);
    cbn [option_map] in P; try discriminate; cbn [app map]; [|exact IH].
  f_equal; [congruence | exact IH].
Qed.

Lemma map_create_payload (l : list pystr) (d1 d2 : pystr) :
  map insight_payload (map (fun x => _create_insight_from_text py_lower is_word x d1) l)
  = map insight_payload (map (fun x => _create_insight_from_text py_lower is_word x d2) l).
Proof. rewrite !map_map. apply map_ext. intros x. reflexivity. Qed.

Lemma unstructured_payload (text d1 d2 : pystr) :
  map insight_payload (_parse_unstructured_format py_lower is_digit is_word text d1)
  = map insight_payload (_parse_unstructured_format py_lower is_digit is_word text d2).
Proof.
  unfold _parse_unstructured_format. cbv zeta.
  destruct (firstn 5 (re_findall pat_bullet_points text)) as [|x l]; cbn [map].
  - destruct (firstn 5 (re_findall (pat_numbered_points is_digit) text)) as [|y l']; cbn [map].
    + apply map_create_payload.
    + f_equal. apply map_create_payload.
  - f_equal. apply map_create_payload.
Qed.

Lemma match_nil_payload (a1 a2 b1 b2 : list ParsedInsight) :
  map insight_payload a1 = map insight_payload a2 ->
  map insight_payload b1 = map insight_payload b2 ->
  map insight_payload (match a1 with [] => b1 | _ => a1 end)
  = map insight_payload (match a2 with [] => b2 | _ => a2 end).
Proof.
  intros Ha Hb. destruct a1, a2; cbn [map] in Ha; try discriminate; [exact Hb | exact Ha].
Qed.

End Extras.

Lemma n_succeeded_in (outcomes : list (option pystr)) (t : pystr) :
  In (Some t) outcomes -> (1 <= n_succeeded outcomes)%nat.
Proof.
  intros H. unfold n_succeeded.
  assert (Hf : In (Some t) (filter (fun o => match o with Some _ => true | None => false end) outcomes))
    by (apply filter_In; split; [exact H | reflexivity]).
  destruct (filter _ outcomes); [destruct Hf | simpl; lia].
Qed.

Lemma find_question_key_in (l : pystr) (mapping : list (pystr * pystr)) (k : pystr) :
  find_question_key l mapping = Some k -> In k (map snd mapping).
Proof.
  induction mapping as [|[kp qs] mapping IH]; cbn [find_question_key map]; [discriminate|].
  destruct (contains kp l); [intros H; inversion H; left; reflexivity | intros H; right; auto].
Qed.

Section Properties.
Variable py_lower : pystr -> pystr.
Variable is_digit : N -> bool.
Variable is_word : N -> bool.

Lemma question_key_known (document_type : pystr) :
  existsb (str_eqb (question_key py_lower document_type)) question_keys = true.
Proof.
  unfold question_key.
  destruct (find_question_key (py_lower document_type) type_mapping) as [k|] eqn:E;
    [|vm_compute; reflexivity].
  apply find_question_key_in in E. vm_compute in E.
  repeat (destruct E as [<- | E]; [vm_compute; reflexivity|]). destruct E.
Qed.

(** [_run_generic_analysis] types every insight as risk, compliance or
    suggestion, and gives at least one insight per prompt whose model call
    succeeded. *)
Theorem generic_analysis_types_and_count (outcomes : list (option pystr)) :
  Forall (fun i => In (type i) default_types) (_run_generic_analysis py_lower is_digit is_word outcomes)
  /\ (n_succeeded outcomes <= length (_run_generic_analysis py_lower is_digit is_word outcomes))%nat.
Proof.
  destruct (generic_loop_props py_lower is_digit is_word outcomes 0) as (T & L & _).
  split; assumption.
Qed.

(** [_run_specific_analysis] types every insight as risk, compliance,
    suggestion or analysis (the default it passes is kept as a type), and
    gives at least one insight per successful call among the first three
    prompts, the only ones it runs. *)
Theorem specific_analysis_types_and_count (outcomes : list (option pystr)) :
  Forall (fun i => In (type i) specific_types) (_run_specific_analysis py_lower is_digit is_word outcomes)
  /\ (n_succeeded (firstn 3 outcomes)
      <= length (_run_specific_analysis py_lower is_digit is_word outcomes))%nat.
Proof.
  destruct (specific_loop_props py_lower is_digit is_word (firstn 3 outcomes)) as (T & L & _).
  split; assumption.
Qed.

(** When one generic prompt's model call succeeds, the placeholder insight
    is never used: the result lists the parsed insights. *)
Theorem analyze_document_no_placeholder (doc_id : pystr) (detect_outcome : option pystr)
  (generic_outcomes : list (option pystr)) (specific_outcomes : pystr -> list (option pystr))
  (t : pystr) :
  In (Some t) generic_outcomes ->
  insights (analyze_document_dynamic py_lower is_digit is_word doc_id detect_outcome
              generic_outcomes specific_outcomes)
  = map (format_insight py_lower)
        (_run_generic_analysis py_lower is_digit is_word generic_outcomes
         ++ _run_specific_analysis py_lower is_digit is_word
              (specific_outcomes (document_type (_detect_document_type py_lower detect_outcome)))).
Proof.
  intros H.
  destruct (generic_loop_props py_lower is_digit is_word generic_outcomes 0) as (_ & L & _).
  pose proof (n_succeeded_in _ _ H) as N.
  unfold analyze_document_dynamic. cbv zeta. cbn [insights].
  unfold _run_generic_analysis in *.
  destruct (generic_loop py_lower is_digit is_word 0 generic_outcomes) as [|x l];
    [simpl in L; lia | reflexivity].
Qed.

(** The confidence [_detect_document_type] reports is High, Medium or Low
    whenever the model's answer has no dotted or dotless i; when the call
    fails it is Low. *)
Theorem detect_document_type_confidence (outcome : option pystr) :
  no_dotted_outcome outcome = true ->
  In (doc_confidence (_detect_document_type py_lower outcome)) intensity_levels
  /\ (outcome = None -> doc_confidence (_detect_document_type py_lower outcome) = s2l "Low").
Proof.
  destruct outcome as [t|]; [|intros _; split; [in_levels | reflexivity]].
  intros H. split; [|discriminate].
  cbn [no_dotted_outcome] in H. apply Bool.negb_true_iff in H.
  unfold _detect_document_type, parse_document_type. cbv zeta. cbn [doc_confidence].
  destruct (re_search pat_confidence (py_strip t)) as [g|] eqn:E; [|in_levels].
  destruct (re_search_sound _ _ _ E) as [G I]; [simpl; tauto|].
  apply title_of_level; [apply in_group_level_pattern; exact G|].
  intros c Hc. apply I, py_strip_incl in Hc.
  pose proof (existsb_false_in _ _ _ H Hc) as Hf.
  apply Bool.orb_false_iff in Hf. destruct Hf as [H1 H2].
  apply N.eqb_neq in H1, H2. auto.
Qed.

(** [get_document_specific_prompts] always picks one of the keys of
    [DOCUMENT_SPECIFIC_QUESTIONS], so its fallback to the service
    questions in [.get] is never taken. *)
Theorem question_set_key_known (document_type : pystr) :
  question_set_key py_lower document_type = question_key py_lower document_type
  /\ existsb (str_eqb (question_key py_lower document_type)) question_keys = true.
Proof.
  unfold question_set_key. cbv zeta. rewrite question_key_known. split; reflexivity.
Qed.

(** The text [_extract_main_content] returns has at most 203 characters:
    200 and the "..." ellipsis. *)
Theorem extract_main_content_bounded (text : pystr) :
  (length (_extract_main_content text) <= 203)%nat.
Proof.
  unfold _extract_main_content. cbv zeta.
  match goal with |- context [Nat.ltb 200 (length ?M)] =>
    destruct (Nat.ltb 200 (length M)) eqn:E end.
  - rewrite length_app, length_firstn. change (length (s2l "...")) with 3%nat. lia.
  - apply Nat.ltb_ge in E. lia.
Qed.

(** Every block of [_split_into_blocks] is non-empty, already stripped,
    and made of characters of the text. *)
Theorem split_into_blocks_trimmed (text : pystr) :
  Forall (fun b => b <> [] /\ py_strip b = b /\ incl b text) (_split_into_blocks is_digit text).
Proof.
  apply Forall_forall. intros b Hb.
  pose proof (blocks_incl is_digit _ _ Hb) as Hinc.
  unfold _split_into_blocks in Hb. apply in_map_iff in Hb. destruct Hb as (b0 & <- & Hb0).
  apply filter_In in Hb0. destruct Hb0 as [_ Hne].
  split; [intros E; rewrite E in Hne; discriminate|].
  split; [apply py_strip_idem | exact Hinc].
Qed.

(** Every fragment of [_split_into_sentences] has more than 10
    characters, is already stripped, and is made of characters of the
    text. *)
Theorem split_into_sentences_trimmed (text : pystr) :
  Forall (fun f => (10 < length f)%nat /\ py_strip f = f /\ incl f text)
         (_split_into_sentences text).
Proof.
  apply Forall_forall. intros f Hf.
  unfold _split_into_sentences in Hf. apply in_map_iff in Hf. destruct Hf as (s0 & <- & Hs0).
  apply filter_In in Hs0. destruct Hs0 as [Hin Hl]. apply Nat.ltb_lt in Hl.
  split; [exact Hl|]. split; [apply py_strip_idem|].
  eapply incl_tran; [apply py_strip_incl | eapply re_split_incl; exact Hin].
Qed.

(** The unstructured stage gives at most 5 insights, all of confidence
    0.7. *)
Theorem unstructured_format_bounded (text default_type : pystr) :
  (length (_parse_unstructured_format py_lower is_digit is_word text default_type) <= 5)%nat
  /\ Forall (fun i => confidence i = 7 # 10)
            (_parse_unstructured_format py_lower is_digit is_word text default_type).
Proof. exact (unstructured_props py_lower is_digit is_word text default_type). Qed.

(** The structured stage gives at most one insight per block, all of
    confidence 0.8. *)
Theorem structured_format_bounded (text default_type : pystr) :
  (length (_parse_structured_format py_lower is_digit is_word text default_type)
   <= length (_split_into_blocks is_digit text))%nat
  /\ Forall (fun i => confidence i = 8 # 10)
            (_parse_structured_format py_lower is_digit is_word text default_type).
Proof. exact (structured_props py_lower is_digit is_word text default_type). Qed.

(** All insights of one [parse_insights_from_text] call share one
    confidence, 0.8, 0.7 or 0.6, the one of the stage that produced them. *)
Theorem parse_insights_one_confidence (text default_type : pystr) :
  exists q, In q [8 # 10; 7 # 10; 6 # 10]
    /\ Forall (fun i => confidence i = q)
              (parse_insights_from_text py_lower is_digit is_word text default_type).
Proof.
  destruct (structured_props py_lower is_digit is_word text default_type) as [_ Cs].
  destruct (unstructured_props py_lower is_digit is_word text default_type) as [_ Cu].
  unfold parse_insights_from_text. cbv zeta.
  destruct (_parse_structured_format py_lower is_digit is_word text default_type) as [|x l].
  - destruct (_parse_unstructured_format py_lower is_digit is_word text default_type) as [|y l'].
    + exists (6 # 10). split; [simpl; auto | constructor; [reflexivity | constructor]].
    + exists (7 # 10). split; [simpl; auto | exact Cu].
  - exists (8 # 10). split; [simpl; auto | exact Cs].
Qed.

(** The default type passed to [parse_insights_from_text] changes only the
    types and recommendations of the insights: for two default types the
    lists have the same length and, position by position, the same
    intensity, description and confidence. *)
Theorem parse_insights_default_type_payload (text d1 d2 : pystr) :
  map insight_payload (parse_insights_from_text py_lower is_digit is_word text d1)
  = map insight_payload (parse_insights_from_text py_lower is_digit is_word text d2).
Proof.
  unfold parse_insights_from_text. cbv zeta.
  apply match_nil_payload; [|reflexivity].
  apply match_nil_payload; [apply structured_payload | apply unstructured_payload].
Qed.

(** [str.lower()], applied by [analyze_document_dynamic] to each
    intensity, turns every intensity of its result into low, medium or
    high, when no model answer contains a dotted or dotless i; for any
    lowering function that maps Low, Medium and High to low, medium and
    high, as [str.lower()] does. *)
Theorem formatted_intensity_lowercase (doc_id : pystr) (detect_outcome : option pystr)
  (generic_outcomes : list (option pystr)) (specific_outcomes : pystr -> list (option pystr)) :
  map py_lower intensity_levels = lower_levels ->
  forallb no_dotted_outcome generic_outcomes = true ->
  forallb no_dotted_outcome
    (firstn 3 (specific_outcomes (document_type (_detect_document_type py_lower detect_outcome))))
    = true ->
  Forall (fun f => In (f_intensity f) lower_levels)
         (insights (analyze_document_dynamic py_lower is_digit is_word doc_id detect_outcome
                      generic_outcomes specific_outcomes)).
Proof.
  intros HL H1 H2.
  destruct (generic_loop_props py_lower is_digit is_word generic_outcomes 0) as (_ & _ & Ig).
  destruct (specific_loop_props py_lower is_digit is_word
              (firstn 3 (specific_outcomes (document_type (_detect_document_type py_lower detect_outcome)))))
    as (_ & _ & Is).
  unfold analyze_document_dynamic. cbv zeta. cbn [insights].
  assert (A : Forall (fun i => In (intensity i) intensity_levels)
                (_run_generic_analysis py_lower is_digit is_word generic_outcomes
                 ++ _run_specific_analysis py_lower is_digit is_word
                      (specific_outcomes (document_type (_detect_document_type py_lower detect_outcome)))))
    by (apply Forall_app; split; [exact (Ig H1) | exact (Is H2)]).
  destruct (map (format_insight py_lower) _) eqn:E.
  - constructor; [vm_compute; left; reflexivity | constructor].
  - rewrite <- E. apply Forall_map. eapply Forall_impl; [|exact A].
    intros x Hx. cbn [format_insight f_intensity]. exact (level_lower py_lower _ HL Hx).
Qed.

End Properties.

(** Instances of the extra theorems with hypotheses *)

Definition risk_answer : pystr := (s2l "RISK: x" ++ [nl] ++ s2l "INTENSITY: high")%list.

Lemma analyze_document_no_placeholder_witness :
  In (Some risk_answer) [Some risk_answer]
  /\ insights (analyze_document_dynamic lower_inst digit_inst word_inst [] None
                 [Some risk_answer] (fun _ => []))
     = map (format_insight lower_inst)
           (_run_generic_analysis lower_inst digit_inst word_inst [Some risk_answer]
            ++ _run_specific_analysis lower_inst digit_inst word_inst
                 ((fun _ : pystr => @nil (option pystr))
                    (document_type (_detect_document_type lower_inst None)))).
Proof.
  assert (H : In (Some risk_answer) [Some risk_answer]) by (left; reflexivity).
  split; [exact H|].
  exact (analyze_document_no_placeholder lower_inst digit_inst word_inst [] None
           [Some risk_answer] (fun _ => []) risk_answer H).
Defined.

Lemma detect_document_type_confidence_witness :
  no_dotted_outcome (Some (s2l "Confidence: high")) = true
  /\ In (doc_confidence (_detect_document_type lower_inst (Some (s2l "Confidence: high"))))
        intensity_levels.
Proof.
  assert (H : no_dotted_outcome (Some (s2l "Confidence: high")) = true)
    by (vm_compute; reflexivity).
  split; [exact H|]. exact (proj1 (detect_document_type_confidence lower_inst _ H)).
Defined.

Lemma formatted_intensity_lowercase_witness :
  map lower_inst intensity_levels = lower_levels
  /\ forallb no_dotted_outcome [Some risk_answer] = true
  /\ forallb no_dotted_outcome
       (firstn 3 ((fun _ : pystr => [Some (s2l "ANALYSIS: y")])
                    (document_type (_detect_document_type lower_inst None)))) = true
  /\ Forall (fun f => In (f_intensity f) lower_levels)
       (insights (analyze_document_dynamic lower_inst digit_inst word_inst [] None
                    [Some risk_answer] (fun _ => [Some (s2l "ANALYSIS: y")]))).
Proof.
  assert (HL : map lower_inst intensity_levels = lower_levels) by (vm_compute; reflexivity).
  assert (H1 : forallb no_dotted_outcome [Some risk_answer] = true) by (vm_compute; reflexivity).
  assert (H2 : forallb no_dotted_outcome
                 (firstn 3 ((fun _ : pystr => [Some (s2l "ANALYSIS: y")])
                              (document_type (_detect_document_type lower_inst None)))) = true)
    by (vm_compute; reflexivity).
  split; [exact HL|]. split; [exact H1|]. split; [exact H2|].
  exact (formatted_intensity_lowercase lower_inst digit_inst word_inst [] None [Some risk_answer]
           (fun _ => [Some (s2l "ANALYSIS: y")]) HL H1 H2).
Defined.
